(** * AutoRescue carrier-delay scan

    A shallow embedding of the extraction-and-decision engine of
    [src/actor/source-code/src/main.py], followed by the properties the
    specification states about it.

    Conventions of the model.

    - A Python [str] is a [string]: a sequence of code points below 256
      (Latin-1), one [ascii] per code point.  The character classes of
      [str.isspace], [str.isdigit], [str.lower] and the regular expression
      class [\s] are the ones CPython uses on that range.
    - A Python [float] is a [pyfloat]: an exact rational, or one of the
      three special values.  Comparisons and truthiness are those of IEEE
      doubles; rounding of arithmetic is not modelled.
    - A timezone-aware UTC [datetime] is its number of microseconds since
      the epoch, a [Z]; a [timedelta] is a difference of two of them.
    - Calls into libraries the actor imports ([re], [json], [dateutil],
      [bs4], [str.upper], [round], [repr]) are the fields of [Runtime].
    - A function that can raise returns an [outcome].  The exceptions
      modelled are those of [int] on a digit token, of [float] and [int]
      on configuration values, of [json.loads], of a selector, and the
      [ValueError]s the code raises itself. *)

From Stdlib Require Import String Ascii List ZArith NArith QArith Bool Lia.
From Stdlib Require Import DecimalString.
Import ListNotations.

Set Warnings "-register-all".

Close Scope Q_scope.
Local Open Scope bool_scope.
Local Open Scope list_scope.
Local Open Scope string_scope.

(* ================================================================== *)
(** * Python values the engine handles *)
(* ================================================================== *)

Module Py.

(** ** Results of calls that may raise *)

Inductive outcome (A : Type) : Type :=
| Ret (a : A)
| Raise (exn : string).

Arguments Ret {A} a.
Arguments Raise {A} exn.

Definition ValueError : string := "ValueError".

(** ** Characters *)

Definition code (c : ascii) : N := N_of_ascii c.

Definition between (lo hi n : N) : bool := (lo <=? n)%N && (n <=? hi)%N.

(** [str.isspace] and the class [\s] of a [str] pattern. *)
Definition isspace (c : ascii) : bool :=
  let n := code c in
  between 9 13 n || between 28 32 n || (n =? 133)%N || (n =? 160)%N.

(** Characters whose Unicode numeric type is Decimal: the ones [int]
    reads. *)
Definition isdecimal_char (c : ascii) : bool := between 48 57 (code c).

(** Characters whose numeric type is Decimal or Digit: the ones
    [str.isdigit] accepts.  Below 256 these are the ASCII digits and the
    superscripts two, three and one (U+00B2, U+00B3, U+00B9). *)
Definition isdigit_char (c : ascii) : bool :=
  let n := code c in
  between 48 57 n || (n =? 178)%N || (n =? 179)%N || (n =? 185)%N.

Definition lower_char (c : ascii) : ascii :=
  let n := code c in
  if between 65 90 n || (between 192 222 n && negb (n =? 215)%N)
  then ascii_of_N (n + 32)
  else c.

Definition upper_ascii_char (c : ascii) : ascii :=
  let n := code c in
  if between 97 122 n then ascii_of_N (n - 32) else c.

(** ** Strings *)

Fixpoint forallb_str (p : ascii -> bool) (s : string) : bool :=
  match s with
  | EmptyString => true
  | String c r => p c && forallb_str p r
  end.

Fixpoint map_str (f : ascii -> ascii) (s : string) : string :=
  match s with
  | EmptyString => EmptyString
  | String c r => String (f c) (map_str f r)
  end.

Definition is_empty (s : string) : bool :=
  match s with
  | EmptyString => true
  | String _ _ => false
  end.

(** [s.lower()]. *)
Definition lower (s : string) : string := map_str lower_char s.

(** [s.upper()] on a string of ASCII characters. *)
Definition upper_ascii (s : string) : string := map_str upper_ascii_char s.

(** [s.isdigit()]: non-empty and every character a digit. *)
Definition isdigit (s : string) : bool :=
  negb (is_empty s) && forallb_str isdigit_char s.

Fixpoint lstrip (s : string) : string :=
  match s with
  | EmptyString => EmptyString
  | String c r => if isspace c then lstrip r else s
  end.

Fixpoint rstrip (s : string) : string :=
  match s with
  | EmptyString => EmptyString
  | String c r =>
      let r' := rstrip r in
      if isspace c && is_empty r' then EmptyString else String c r'
  end.

(** [s.strip()]. *)
Definition strip (s : string) : string := rstrip (lstrip s).

(** [needle in hay]. *)
Fixpoint contains (needle hay : string) : bool :=
  prefix needle hay ||
  match hay with
  | EmptyString => false
  | String _ r => contains needle r
  end.

(** [s[:n]] for a non-negative [n]. *)
Fixpoint take (n : nat) (s : string) : string :=
  match n, s with
  | O, _ => EmptyString
  | S _, EmptyString => EmptyString
  | S k, String c r => String c (take k r)
  end.

Fixpoint drop (n : nat) (s : string) : string :=
  match n, s with
  | O, _ => s
  | S _, EmptyString => EmptyString
  | S k, String _ r => drop k r
  end.

(** [s[a:b]] for [0 <= a] and [0 <= b]: empty when [b <= a]. *)
Definition slice (s : string) (a b : Z) : string :=
  take (Z.to_nat (b - a)) (drop (Z.to_nat a) s).

(** [s[:n]] for any integer [n]: a negative [n] counts from the end. *)
Definition slice_to (s : string) (n : Z) : string :=
  if (0 <=? n)%Z then take (Z.to_nat n) s
  else take (Z.to_nat (Z.of_nat (String.length s) + n)) s.

(** [re.split(r"[...]", s)] for a class of single characters: a piece
    ends at every separator. *)
Fixpoint split_chars (sep : ascii -> bool) (s : string) : list string :=
  match s with
  | EmptyString => [EmptyString]
  | String c r =>
      if sep c then EmptyString :: split_chars sep r
      else match split_chars sep r with
           | piece :: rest => String c piece :: rest
           | [] => [String c EmptyString]
           end
  end.

(** [re.split(r"[...]+", s)]: a piece ends at every maximal run of
    separators.  [in_run] tells that the previous character was one. *)
Fixpoint split_runs_from (sep : ascii -> bool) (in_run : bool) (s : string)
  : list string :=
  match s with
  | EmptyString => [EmptyString]
  | String c r =>
      if sep c then
        if in_run then split_runs_from sep true r
        else EmptyString :: split_runs_from sep true r
      else match split_runs_from sep false r with
           | piece :: rest => String c piece :: rest
           | [] => [String c EmptyString]
           end
  end.

Definition split_runs (sep : ascii -> bool) (s : string) : list string :=
  split_runs_from sep false s.

(** [re.sub(r"\s+", " ", s)]. *)
Fixpoint collapse_spaces_from (in_run : bool) (s : string) : string :=
  match s with
  | EmptyString => EmptyString
  | String c r =>
      if isspace c then
        if in_run then collapse_spaces_from true r
        else String " "%char (collapse_spaces_from true r)
      else String c (collapse_spaces_from false r)
  end.

Definition collapse_spaces (s : string) : string :=
  collapse_spaces_from false s.

(** The most digits [int] reads from a text:
    [sys.int_info.default_max_str_digits]. *)
Definition int_max_str_digits : Z := 4300.

(** [int(token)] for a token on which [isdigit] holds: the decimal value
    when every character is a decimal digit and there are no more of them
    than [int] reads (leading zeros counted), [ValueError] otherwise. *)
Fixpoint decimal_value (acc : Z) (s : string) : Z :=
  match s with
  | EmptyString => acc
  | String c r => decimal_value (10 * acc + Z.of_N (code c - 48)) r
  end.

Definition int_of_digits (token : string) : outcome Z :=
  if forallb_str isdecimal_char token then
    if (Z.of_nat (String.length token) <=? int_max_str_digits)%Z
    then Ret (decimal_value 0 token)
    else Raise ValueError
  else Raise ValueError.

(** [str(n)] for an [int]. *)
Definition str_of_int (z : Z) : string := NilZero.string_of_int (Z.to_int z).

(** ** Floats *)

Inductive pyfloat : Type :=
| Fin (q : Q)
| PosInf
| NegInf
| NaN.

Definition Qltb (x y : Q) : bool := negb (Qle_bool y x).

(** [bool(x)]: every float but zero is true. *)
Definition float_truthy (x : pyfloat) : bool :=
  match x with
  | Fin q => negb (Qeq_bool q 0)
  | _ => true
  end.

(** [x < y]. *)
Definition float_lt (x y : pyfloat) : bool :=
  match x, y with
  | Fin a, Fin b => Qltb a b
  | Fin _, PosInf => true
  | NegInf, Fin _ => true
  | NegInf, PosInf => true
  | _, _ => false
  end.

(** [max(x, y)]: the first argument unless the second is greater. *)
Definition float_max (x y : pyfloat) : pyfloat :=
  if float_lt x y then y else x.

Definition zero : pyfloat := Fin 0.

End Py.

(* ================================================================== *)
(** * [hashlib.md5]  *)
(* ================================================================== *)

Module MD5.

Local Open Scope N_scope.

Definition mask32 : N := 4294967295.

Definition add32 (a b : N) : N := N.land (a + b) mask32.

Definition not32 (a : N) : N := N.lxor a mask32.

Definition rotl32 (x s : N) : N :=
  N.lor (N.land (N.shiftl x s) mask32) (N.shiftr x (32 - s)).

(** [floor(2^32 * abs(sin(i + 1)))] for [i] from 0 to 63. *)
Definition sines : list N :=
  [ 0xd76aa478; 0xe8c7b756; 0x242070db; 0xc1bdceee;
    0xf57c0faf; 0x4787c62a; 0xa8304613; 0xfd469501;
    0x698098d8; 0x8b44f7af; 0xffff5bb1; 0x895cd7be;
    0x6b901122; 0xfd987193; 0xa679438e; 0x49b40821;
    0xf61e2562; 0xc040b340; 0x265e5a51; 0xe9b6c7aa;
    0xd62f105d; 0x02441453; 0xd8a1e681; 0xe7d3fbc8;
    0x21e1cde6; 0xc33707d6; 0xf4d50d87; 0x455a14ed;
    0xa9e3e905; 0xfcefa3f8; 0x676f02d9; 0x8d2a4c8a;
    0xfffa3942; 0x8771f681; 0x6d9d6122; 0xfde5380c;
    0xa4beea44; 0x4bdecfa9; 0xf6bb4b60; 0xbebfbc70;
    0x289b7ec6; 0xeaa127fa; 0xd4ef3085; 0x04881d05;
    0xd9d4d039; 0xe6db99e5; 0x1fa27cf8; 0xc4ac5665;
    0xf4292244; 0x432aff97; 0xab9423a7; 0xfc93a039;
    0x655b59c3; 0x8f0ccc92; 0xffeff47d; 0x85845dd1;
    0x6fa87e4f; 0xfe2ce6e0; 0xa3014314; 0x4e0811a1;
    0xf7537e82; 0xbd3af235; 0x2ad7d2bb; 0xeb86d391 ].

Definition shifts : list N :=
  [ 7; 12; 17; 22; 7; 12; 17; 22; 7; 12; 17; 22; 7; 12; 17; 22;
    5; 9; 14; 20; 5; 9; 14; 20; 5; 9; 14; 20; 5; 9; 14; 20;
    4; 11; 16; 23; 4; 11; 16; 23; 4; 11; 16; 23; 4; 11; 16; 23;
    6; 10; 15; 21; 6; 10; 15; 21; 6; 10; 15; 21; 6; 10; 15; 21 ].

Record state : Type := State { sa : N; sb : N; sc : N; sd : N }.

Definition initial : state :=
  State 0x67452301 0xefcdab89 0x98badcfe 0x10325476.

(** One of the 64 operations on a block of sixteen words. *)
Definition operation (block : list N) (st : state) (i : N) : state :=
  let '(State a b c d) := st in
  let '(f, g) :=
    if i <? 16 then (N.lor (N.land b c) (N.land (not32 b) d), i)
    else if i <? 32 then
      (N.lor (N.land d b) (N.land (not32 d) c), (5 * i + 1) mod 16)
    else if i <? 48 then (N.lxor b (N.lxor c d), (3 * i + 5) mod 16)
    else (N.lxor c (N.lor b (not32 d)), (7 * i) mod 16) in
  let f' :=
    add32 (add32 (add32 f a) (nth (N.to_nat i) sines 0))
          (nth (N.to_nat g) block 0) in
  State d (add32 b (rotl32 f' (nth (N.to_nat i) shifts 0))) b c.

Definition rounds : list N := map N.of_nat (seq 0 64).

Definition compress (st : state) (block : list N) : state :=
  let '(State a b c d) := fold_left (operation block) rounds st in
  State (add32 (sa st) a) (add32 (sb st) b) (add32 (sc st) c)
        (add32 (sd st) d).

(** Little-endian words of a list of bytes, four bytes a word. *)
Fixpoint words (bytes : list N) : list N :=
  match bytes with
  | b0 :: b1 :: b2 :: b3 :: rest =>
      (b0 + 256 * (b1 + 256 * (b2 + 256 * b3))) :: words rest
  | _ => []
  end.

Fixpoint chunks (n : nat) (ws : list N) : list (list N) :=
  match n with
  | O => []
  | S k => firstn 16 ws :: chunks k (skipn 16 ws)
  end.

Fixpoint le_bytes (n : nat) (x : N) : list N :=
  match n with
  | O => []
  | S k => (x mod 256) :: le_bytes k (x / 256)
  end.

(** The message followed by the byte 0x80, zeros up to 56 modulo 64, and
    the bit length on eight bytes. *)
Definition pad (msg : list N) : list N :=
  let len := N.of_nat (List.length msg) in
  let zeros := (55 + 64 - len mod 64) mod 64 in
  (msg ++ 128 :: repeat 0 (N.to_nat zeros) ++ le_bytes 8 (8 * len))%list.

Definition digest (msg : list N) : state :=
  let padded := pad msg in
  fold_left compress (chunks (List.length padded / 64) (words padded)) initial.

Definition hex_digit (n : N) : ascii :=
  if n <? 10 then ascii_of_N (48 + n) else ascii_of_N (87 + n).

Definition hex_byte (b : N) : string :=
  String (hex_digit (b / 16)) (String (hex_digit (b mod 16)) EmptyString).

Definition hex_word (w : N) : string :=
  String.concat EmptyString (map hex_byte (le_bytes 4 w)).

(** [s.encode("utf-8")] for code points below 256. *)
Fixpoint utf8 (s : string) : list N :=
  match s with
  | EmptyString => []
  | String c r =>
      let n := Py.code c in
      if n <? 128 then n :: utf8 r
      else (192 + n / 64) :: (128 + n mod 64) :: utf8 r
  end.

(** [hashlib.md5(s.encode("utf-8")).hexdigest()]. *)
Definition hexdigest (s : string) : string :=
  let '(State a b c d) := digest (utf8 s) in
  (hex_word a ++ hex_word b ++ hex_word c ++ hex_word d)%string.

End MD5.

(* ================================================================== *)
(** * Data model *)
(* ================================================================== *)

Import Py.

(** A decoded JSON document, as [json.loads] builds it.  The entries of a
    [JDict] hold each key once. *)
Inductive json : Type :=
| JNull
| JBool (b : bool)
| JInt (z : Z)
| JFloat (x : pyfloat)
| JStr (s : string)
| JList (items : list json)
| JDict (entries : list (string * json)).

(** [entries.get(key)]. *)
Fixpoint dict_get (entries : list (string * json)) (key : string) : json :=
  match entries with
  | [] => JNull
  | (k, v) :: rest => if String.eqb k key then v else dict_get rest key
  end.

(** The library calls of [main.py]. *)
Class Runtime : Type := {
  (** [re.compile(pattern, re.IGNORECASE)]; [None] stands for [re.error]. *)
  regex : Type;
  re_compile : string -> option regex;
  (** [re.compile(re.escape(pattern), re.IGNORECASE)]. *)
  re_compile_escaped : string -> regex;
  (** [compiled.search(text)]: the start and end of the match. *)
  re_search : regex -> string -> option (nat * nat);
  (** [date_parser.parse(value, fuzzy=True)]: the wall-clock time in
      microseconds and the UTC offset when the value carries one; [None]
      stands for [ValueError], [TypeError] and [OverflowError]. *)
  date_parse : string -> option (Z * option Z);
  (** [dt.isoformat()] of a UTC datetime. *)
  isoformat : Z -> string;
  (** [json.loads(text)]; [None] stands for [json.JSONDecodeError]. *)
  json_loads : string -> option json;
  (** The exception [json.loads(text)] raises that is not a
      [JSONDecodeError], when it raises one: [ValueError] for an integer
      of more digits than [int] reads, [RecursionError] for a text nested
      too deep.  [json_loads] is then not consulted. *)
  json_loads_raises : string -> option string;
  (** [json.dumps(value, default=str)]. *)
  json_dumps : json -> string;
  (** [str(x)] for a float, and for a list or a dict. *)
  float_str : pyfloat -> string;
  container_str : json -> string;
  (** [BeautifulSoup(body, "lxml")], [soup.select_one(selector)] followed
      by [element.get_text(separator=" ", strip=True)] ([None] when no
      element is selected), and [soup.get_text(separator=" ", strip=True)]. *)
  soup : Type;
  soup_parse : string -> soup;
  soup_select_text : soup -> string -> outcome (option string);
  soup_get_text : soup -> string;
  (** [s.upper()] and [round(x, 2)]. *)
  str_upper : string -> string;
  round2 : pyfloat -> pyfloat
}.

Module ActorSettings.
Record t : Type := Build {
  default_delay_hours : pyfloat;
  min_delay_hours : pyfloat;
  snapshot_chars : Z;
  source_label : string;
  global_headers : list (string * string);
  delay_patterns : list string;
  ignore_patterns : list string;
  request_timeout : pyfloat;
  concurrency : Z;
  carrier_status_code : string
}.
End ActorSettings.

Module SourceConfig.
Record t : Type := Build {
  url : string;
  order_id : string;
  carrier : option string;
  region : option string;
  incident_id : option string;
  promised_delivery_date : option string;
  expected_delay_hours : option pyfloat;
  status_selectors : list string;
  eta_selectors : list string;
  promised_selectors : list string;
  status_paths : list string;
  eta_paths : list string;
  promised_paths : list string;
  delay_patterns : list string;
  ignore_patterns : list string;
  headers : list (string * string);
  metadata : list (string * string);
  min_delay_hours : option pyfloat;
  content_mode : string;
  source_label : option string;
  carrier_status_code : option string
}.
End SourceConfig.

Module PatternMatch.
Record t : Type := Build {
  pattern : string;
  text : string;
  start : Z;
  end_ : Z;
  origin : string
}.
End PatternMatch.

(** The three candidate texts and the full-text body of one document. *)
Record Candidates : Type := {
  status_text : option string;
  estimated_raw : option string;
  promised_raw : option string;
  page_text : string
}.

(** What [client.get] followed by [raise_for_status] ends in: one of the
    two exceptions the evaluator catches, or a response with its
    [content-type] header (empty when absent) and its text. *)
Inductive fetch_result : Type :=
| HTTPStatusError
| RequestError
| Response (content_type : string) (body : string).

(** A value of the emitted record. *)
Inductive value : Type :=
| VNone
| VStr (s : string)
| VFloat (x : pyfloat)
| VList (items : list value)
| VDict (entries : list (string * string)).

Definition incident : Type := list (string * value).

(* ================================================================== *)
(** * The engine *)
(* ================================================================== *)

(** [bool(x)] for an [Optional[str]]. *)
Definition truthy (o : option string) : bool :=
  match o with
  | Some s => negb (is_empty s)
  | None => false
  end.

(** [a or b] on [Optional[str]] operands. *)
Definition or_else (a b : option string) : option string :=
  if truthy a then a else b.

Definition of_option (o : option string) : value :=
  match o with
  | Some s => VStr s
  | None => VNone
  end.

(** [s.replace(old, new)] for a non-empty [old]; [skip] counts the
    characters of a replaced occurrence still to pass. *)
Fixpoint replace_from (old new : string) (skip : nat) (s : string) : string :=
  match s with
  | EmptyString => EmptyString
  | String c r =>
      match skip with
      | S k => replace_from old new k r
      | O =>
          if prefix old s
          then new ++ replace_from old new (String.length old - 1) r
          else String c (replace_from old new 0 r)
      end
  end.

Definition replace (old new s : string) : string := replace_from old new 0 s.

Definition _normalize_whitespace (text : string) : string :=
  strip (collapse_spaces text).

(** The separators of [re.split(r"[.\[\]]", path)]. *)
Definition is_path_separator (c : ascii) : bool :=
  (c =? ".")%char || (c =? "[")%char || (c =? "]")%char.

Definition path_tokens (path : string) : list string :=
  filter (fun token => negb (is_empty token))
         (split_chars is_path_separator path).

(** The loop of [_resolve_json_path] over the tokens.  Python's [None]
    is [JNull]. *)
Fixpoint resolve_tokens (current : json) (tokens : list string)
  : outcome json :=
  match tokens with
  | [] => Ret current
  | token :: rest =>
      match current with
      | JList items =>
          if isdigit token then
            match int_of_digits token with
            | Raise e => Raise e
            | Ret index =>
                if (0 <=? index)%Z && (index <? Z.of_nat (List.length items))%Z
                then resolve_tokens (nth (Z.to_nat index) items JNull) rest
                else Ret JNull
            end
          else Ret JNull
      | JDict entries => resolve_tokens (dict_get entries token) rest
      | _ => Ret JNull
      end
  end.

Definition _resolve_json_path (payload : json) (path : string) : outcome json :=
  resolve_tokens payload (path_tokens path).

(** The separators of [re.split(r"[\n,]+", stripped)]. *)
Definition is_list_separator (c : ascii) : bool :=
  (c =? "010")%char || (c =? ",")%char.

(** [item in (None, "")]. *)
Definition none_or_empty (item : json) : bool :=
  match item with
  | JNull => true
  | JStr s => is_empty s
  | _ => false
  end.

(** [(estimated - promised).total_seconds() / 3600]. *)
Definition hours_between (estimated promised : Z) : pyfloat :=
  Fin (Qmake (estimated - promised) 3600000000).

Definition _determine_delay_hours
  (expected_delay_hours : option pyfloat) (promised estimated : option Z)
  (fallback : pyfloat) : pyfloat :=
  let from_timestamps :=
    match promised, estimated with
    | Some p, Some e => float_max (hours_between e p) zero
    | _, _ => fallback
    end in
  match expected_delay_hours with
  | Some x => if float_truthy x && float_lt zero x then x else from_timestamps
  | None => from_timestamps
  end.

(** [source.min_delay_hours or settings.min_delay_hours]. *)
Definition effective_min_delay
  (source : SourceConfig.t) (settings : ActorSettings.t) : pyfloat :=
  match SourceConfig.min_delay_hours source with
  | Some x => if float_truthy x then x else ActorSettings.min_delay_hours settings
  | None => ActorSettings.min_delay_hours settings
  end.

(** [value not in (None, "", [])]. *)
Definition is_blank (v : value) : bool :=
  match v with
  | VNone => true
  | VStr s => is_empty s
  | VList [] => true
  | _ => false
  end.

Definition sparse (payload : incident) : incident :=
  filter (fun entry => negb (is_blank (snd entry))) payload.

Definition _context_snippet
  (text : option string) (m : PatternMatch.t) (size : Z) : option string :=
  match text with
  | None => None
  | Some t =>
      if is_empty t then None
      else
        let radius := Z.max (size / 2) 80 in
        let start := Z.max (PatternMatch.start m - radius) 0 in
        let end_ :=
          Z.min (PatternMatch.end_ m + radius) (Z.of_nat (String.length t)) in
        let snippet := _normalize_whitespace (slice t start end_) in
        let snippet :=
          if (Z.of_nat (String.length snippet) >? size)%Z
          then rstrip (slice_to snippet size)
          else snippet in
        if is_empty snippet then None else Some snippet
  end.

Section Engine.

Context {R : Runtime}.

(** [re.compile(pattern, re.IGNORECASE)], and the escaped pattern when
    that raises [re.error]. *)
Definition compile (pattern : string) : regex :=
  match re_compile pattern with
  | Some compiled => compiled
  | None => re_compile_escaped pattern
  end.

(** The loop of [_find_pattern] over the patterns. *)
Fixpoint find_in (text : string) (patterns : list string) (origin : string)
  : option PatternMatch.t :=
  match patterns with
  | [] => None
  | pattern :: rest =>
      match re_search (compile pattern) text with
      | Some (s, e) =>
          Some (PatternMatch.Build pattern
                  (slice text (Z.of_nat s) (Z.of_nat e))
                  (Z.of_nat s) (Z.of_nat e) origin)
      | None => find_in text rest origin
      end
  end.

Definition _find_pattern
  (text : option string) (patterns : list string) (origin : string)
  : option PatternMatch.t :=
  match text with
  | None => None
  | Some t => if is_empty t then None else find_in t patterns origin
  end.

(** The loop of [_matches_pattern] over the patterns. *)
Fixpoint matches_in (text : string) (patterns : list string) : bool :=
  match patterns with
  | [] => false
  | pattern :: rest =>
      match re_search (compile pattern) text with
      | Some _ => true
      | None => matches_in text rest
      end
  end.

Definition _matches_pattern (text : option string) (patterns : list string)
  : bool :=
  match text with
  | None => false
  | Some t => if is_empty t then false else matches_in t patterns
  end.

Fixpoint _extract_from_soup (sp : soup) (selectors : list string)
  : outcome (option string) :=
  match selectors with
  | [] => Ret None
  | selector :: rest =>
      match soup_select_text sp selector with
      | Raise e => Raise e
      | Ret None => _extract_from_soup sp rest
      | Ret (Some element_text) =>
          let text := _normalize_whitespace element_text in
          if is_empty text then _extract_from_soup sp rest
          else Ret (Some text)
      end
  end.

(** [str(value)]. *)
Definition py_str (v : json) : string :=
  match v with
  | JNull => "None"
  | JBool true => "True"
  | JBool false => "False"
  | JInt z => str_of_int z
  | JFloat x => float_str x
  | JStr s => s
  | JList _ | JDict _ => container_str v
  end.

Fixpoint _extract_from_json (payload : json) (paths : list string)
  : outcome (option string) :=
  match paths with
  | [] => Ret None
  | path :: rest =>
      match _resolve_json_path payload path with
      | Raise e => Raise e
      | Ret JNull => _extract_from_json payload rest
      | Ret v =>
          let text :=
            match v with
            | JList _ | JDict _ => json_dumps v
            | _ => py_str v
            end in
          let text := _normalize_whitespace text in
          if is_empty text then _extract_from_json payload rest
          else Ret (Some text)
      end
  end.

(** [_parse_datetime] on the values whose conversion to UTC succeeds.
    [dt.astimezone(timezone.utc)] stands after the [try] and raises for
    an offset of a day or more and at the ends of the calendar; those
    values are outside the model, which subtracts the offset. *)
Definition _parse_datetime (v : option string) : option Z :=
  match v with
  | None => None
  | Some s =>
      if is_empty s then None
      else match date_parse s with
           | None => None
           | Some (wall, None) => Some wall
           | Some (wall, Some offset) => Some (wall - offset)%Z
           end
  end.

Definition _to_iso (dt : option Z) : option string :=
  match dt with
  | None => None
  | Some d => Some (replace "+00:00" "Z" (isoformat d))
  end.

Definition _build_incident_id (source : SourceConfig.t) : string :=
  let base := SourceConfig.order_id source ++ ":" ++ SourceConfig.url source in
  let digest := take 8 (MD5.hexdigest base) in
  let derived :=
    str_upper ("APIFY-" ++ SourceConfig.order_id source ++ "-" ++ digest) in
  match SourceConfig.incident_id source with
  | Some id => if is_empty id then derived else id
  | None => derived
  end.

(** [[str(item) for item in value if item not in (None, "")]]. *)
Definition str_items (items : list json) : list string :=
  map py_str (filter (fun item => negb (none_or_empty item)) items).

(** The list [_ensure_list(value)] returns.  On a text, [json.loads] may
    also raise an exception that is not a [JSONDecodeError], which leaves
    the function: [ensure_list_call] below has that. *)
Definition _ensure_list (v : json) : list string :=
  match v with
  | JNull => []
  | JList items => str_items items
  | JStr s =>
      let stripped := strip s in
      if is_empty stripped then []
      else
        match json_loads stripped with
        | None =>
            let parts :=
              map strip
                  (filter (fun part => negb (is_empty (strip part)))
                          (split_runs is_list_separator stripped)) in
            match parts with
            | [] => [stripped]
            | _ :: _ => parts
            end
        | Some (JList items) => str_items items
        | Some (JStr parsed) =>
            if is_empty (strip parsed) then [] else [strip parsed]
        | Some _ => []
        end
  | _ => [py_str v]
  end.

(** Line 223 of [_evaluate_source], on the lowercased content type. *)
Definition is_json_mode (content_type : string) (source : SourceConfig.t)
  : bool :=
  contains "application/json" content_type
  || String.eqb (SourceConfig.content_mode source) "json".

(** [json.loads(text)] inside [try: ... except json.JSONDecodeError]: the
    value decoded, [None] when the handler is entered; any other
    exception leaves the [try]. *)
Definition loads (text : string) : outcome (option json) :=
  match json_loads_raises text with
  | Some e => Raise e
  | None => Ret (json_loads text)
  end.

(** The branch of [_evaluate_source] taken in JSON mode (lines 227-235). *)
Definition json_candidates (body : string) (source : SourceConfig.t)
  : outcome Candidates :=
  let promised := SourceConfig.promised_delivery_date source in
  match loads body with
  | Raise e => Raise e
  | Ret None =>
      Ret {| status_text := None; estimated_raw := None;
             promised_raw := promised;
             page_text := _normalize_whitespace body |}
  | Ret (Some parsed_json) =>
      match _extract_from_json parsed_json (SourceConfig.status_paths source) with
      | Raise e => Raise e
      | Ret status =>
          match _extract_from_json parsed_json (SourceConfig.eta_paths source) with
          | Raise e => Raise e
          | Ret estimated =>
              match
                (if truthy promised then Ret promised
                 else _extract_from_json parsed_json
                        (SourceConfig.promised_paths source))
              with
              | Raise e => Raise e
              | Ret promised' =>
                  Ret {| status_text := status; estimated_raw := estimated;
                         promised_raw := promised';
                         page_text :=
                           _normalize_whitespace (json_dumps parsed_json) |}
              end
          end
      end
  end.

(** The branch taken in HTML mode (lines 237-241). *)
Definition html_candidates (body : string) (source : SourceConfig.t)
  : outcome Candidates :=
  let promised := SourceConfig.promised_delivery_date source in
  let sp := soup_parse body in
  match _extract_from_soup sp (SourceConfig.status_selectors source) with
  | Raise e => Raise e
  | Ret status =>
      match _extract_from_soup sp (SourceConfig.eta_selectors source) with
      | Raise e => Raise e
      | Ret estimated =>
          match
            (if truthy promised then Ret promised
             else _extract_from_soup sp (SourceConfig.promised_selectors source))
          with
          | Raise e => Raise e
          | Ret promised' =>
              Ret {| status_text := status; estimated_raw := estimated;
                     promised_raw := promised';
                     page_text := _normalize_whitespace (soup_get_text sp) |}
          end
      end
  end.

(** Lines 215-241: from the response to the candidates. *)
Definition extract_candidates
  (content_type_header body : string) (source : SourceConfig.t)
  : outcome Candidates :=
  let content_type := lower content_type_header in
  if is_json_mode content_type source then json_candidates body source
  else html_candidates body source.

(** Lines 243-245: the ignore check. *)
Definition ignored (x : Candidates) (source : SourceConfig.t) : bool :=
  _matches_pattern (status_text x) (SourceConfig.ignore_patterns source)
  || _matches_pattern (Some (page_text x)) (SourceConfig.ignore_patterns source).

(** Lines 247-249: the delay match, the status candidate first. *)
Definition select_delay_match (x : Candidates) (source : SourceConfig.t)
  : option PatternMatch.t :=
  match _find_pattern (status_text x) (SourceConfig.delay_patterns source) "status" with
  | Some m => Some m
  | None =>
      _find_pattern (Some (page_text x)) (SourceConfig.delay_patterns source) "body"
  end.

(** Line 254: the text around the match. *)
Definition snippet_of
  (x : Candidates) (m : PatternMatch.t) (settings : ActorSettings.t)
  : option string :=
  _context_snippet
    (if String.eqb (PatternMatch.origin m) "status"
     then status_text x else Some (page_text x))
    m (ActorSettings.snapshot_chars settings).

(** Lines 255-256: the two timestamps. *)
Definition estimated_dt_of
  (x : Candidates) (m : PatternMatch.t) (settings : ActorSettings.t)
  : option Z :=
  _parse_datetime (or_else (estimated_raw x) (snippet_of x m settings)).

Definition promised_dt_of (x : Candidates) : option Z :=
  _parse_datetime (promised_raw x).

(** Lines 259-264: the delay of the source. *)
Definition delay_hours_of
  (x : Candidates) (m : PatternMatch.t) (source : SourceConfig.t)
  (settings : ActorSettings.t) : pyfloat :=
  _determine_delay_hours
    (SourceConfig.expected_delay_hours source)
    (promised_dt_of x) (estimated_dt_of x m settings)
    (ActorSettings.default_delay_hours settings).

(** Lines 269-296: the record of a source that passed the checks. *)
Definition build_incident
  (x : Candidates) (m : PatternMatch.t) (source : SourceConfig.t)
  (settings : ActorSettings.t) (detected_at : string) : incident :=
  let context_snippet := snippet_of x m settings in
  let estimated_dt := estimated_dt_of x m settings in
  let promised_dt := promised_dt_of x in
  let delay_hours := delay_hours_of x m source settings in
  let incident_id := _build_incident_id source in
  let status_description :=
    or_else (or_else (status_text x) (Some (PatternMatch.text m)))
            (Some "Carrier reported delay.") in
  let estimated_iso := or_else (_to_iso estimated_dt) (estimated_raw x) in
  let promised_iso := or_else (_to_iso promised_dt) (promised_raw x) in
  let payload :=
    [ ("incidentId", VStr incident_id);
      ("orderId", VStr (SourceConfig.order_id source));
      ("delayHours", VFloat (round2 delay_hours));
      ("promisedDeliveryDate", of_option promised_iso);
      ("estimatedDelivery", of_option estimated_iso);
      ("carrierStatusCode",
       of_option (or_else (SourceConfig.carrier_status_code source)
                    (Some (ActorSettings.carrier_status_code settings))));
      ("carrierStatusDescription", of_option status_description);
      ("detectedAt", VStr detected_at);
      ("source",
       of_option (or_else (SourceConfig.source_label source)
                    (Some (ActorSettings.source_label settings))));
      ("carrier", of_option (SourceConfig.carrier source));
      ("region", of_option (SourceConfig.region source));
      ("rawStatusText", of_option (status_text x));
      ("rawEstimatedDelivery", of_option (estimated_raw x));
      ("rawPromisedDelivery", of_option (promised_raw x));
      ("rawSnapshot", of_option context_snippet);
      ("matchedPattern", VStr (PatternMatch.pattern m));
      ("matchedText", VStr (PatternMatch.text m)) ] in
  let payload :=
    match SourceConfig.metadata source with
    | [] => payload
    | _ :: _ =>
        (payload ++ [("metadata", VDict (SourceConfig.metadata source))])%list
    end in
  sparse payload.

(** Lines 243-296: from the candidates to the incident, [detected_at]
    being what [_now_iso()] returns. *)
Definition assess_candidates
  (x : Candidates) (source : SourceConfig.t) (settings : ActorSettings.t)
  (detected_at : string) : option incident :=
  if ignored x source then None
  else
    match select_delay_match x source with
    | None => None
    | Some m =>
        if float_lt (delay_hours_of x m source settings)
                    (effective_min_delay source settings)
        then None
        else Some (build_incident x m source settings detected_at)
    end.

Definition _evaluate_source
  (fetched : fetch_result) (source : SourceConfig.t)
  (settings : ActorSettings.t) (detected_at : string)
  : outcome (option incident) :=
  match fetched with
  | HTTPStatusError => Ret None
  | RequestError => Ret None
  | Response content_type body =>
      match extract_candidates content_type body source with
      | Raise e => Raise e
      | Ret x => Ret (assess_candidates x source settings detected_at)
      end
  end.

(** The compiled pattern is found somewhere in the text. *)
Definition found_in (pattern text : string) : bool :=
  match re_search (compile pattern) text with
  | Some _ => true
  | None => false
  end.

(** A pattern matches a candidate: the candidate is a text, not empty,
    in which the pattern is found.  An absent or empty candidate is
    matched by nothing, as [_matches_pattern] and [_find_pattern] have
    it. *)
Definition matches (pattern : string) (candidate : option string) : Prop :=
  exists t, candidate = Some t /\ t <> EmptyString /\ found_in pattern t = true.

(** [pattern] is the first of [patterns], in list order, found in [text]. *)
Definition first_found (patterns : list string) (text pattern : string) : Prop :=
  exists before after,
    patterns = (before ++ pattern :: after)%list
    /\ found_in pattern text = true
    /\ forall p, In p before -> found_in p text = false.

(** Lines 143-149 of [main]: a result that is an exception is logged and
    skipped, and a result is kept when it is a non-empty record. *)
Fixpoint collect_incidents (results : list (outcome (option incident)))
  : list incident :=
  match results with
  | [] => []
  | Ret (Some (entry :: more)) :: rest =>
      (entry :: more) :: collect_incidents rest
  | _ :: rest => collect_incidents rest
  end.

End Engine.

(** A source with another per-source threshold, or another explicit
    delay. *)
Definition with_min_delay_hours
  (source : SourceConfig.t) (threshold : option pyfloat) : SourceConfig.t :=
  let 'SourceConfig.Build url order carrier region incident promised expected
        ssel esel psel spath epath ppath delay ignore headers metadata _
        mode label code := source in
  SourceConfig.Build url order carrier region incident promised expected
    ssel esel psel spath epath ppath delay ignore headers metadata threshold
    mode label code.

Definition with_expected_delay_hours
  (source : SourceConfig.t) (hours : option pyfloat) : SourceConfig.t :=
  let 'SourceConfig.Build url order carrier region incident promised _
        ssel esel psel spath epath ppath delay ignore headers metadata
        threshold mode label code := source in
  SourceConfig.Build url order carrier region incident promised hours
    ssel esel psel spath epath ppath delay ignore headers metadata threshold
    mode label code.

(* ================================================================== *)
(** * Configuration parsing *)
(* ================================================================== *)

(** [float(s)] and [int(s)] for a [str]; [None] stands for [ValueError]. *)
Class NumberParsing : Type := {
  float_of_str : string -> option pyfloat;
  int_of_str : string -> option Z
}.

Definition TypeError : string := "TypeError".

Definition OverflowError : string := "OverflowError".

Definition and_then {A B : Type} (m : outcome A) (k : A -> outcome B)
  : outcome B :=
  match m with
  | Ret a => k a
  | Raise e => Raise e
  end.

Notation "x <- m ;; k" := (and_then m (fun x => k))
  (at level 61, m at next level, right associativity).

Definition DEFAULT_DELAY_PATTERNS : list string :=
  [ "\b(delay(ed)?|exception|service alert|operational issue)\b";
    "\b(weather|storm|backlog)\b" ].

Definition DEFAULT_IGNORE_PATTERNS : list string :=
  [ "\b(resolved|back to normal|cleared)\b";
    "\b(delivered|delivery complete)\b" ].

Definition DEFAULT_SOURCE_LABEL : string := "apify-actor#carrier-delay-scan".

Definition DEFAULT_STATUS_CODE : string := "IN_TRANSIT_DELAYED".

Definition DEFAULT_SNAPSHOT_CHARS : Z := 420.

(** [ActorSettings()]. *)
Definition default_settings : ActorSettings.t :=
  ActorSettings.Build (Fin 48) (Fin 24) DEFAULT_SNAPSHOT_CHARS
    DEFAULT_SOURCE_LABEL [] DEFAULT_DELAY_PATTERNS DEFAULT_IGNORE_PATTERNS
    (Fin 12) 4 DEFAULT_STATUS_CODE.

(** [bool(value)]. *)
Definition json_truthy (v : json) : bool :=
  match v with
  | JNull => false
  | JBool b => b
  | JInt z => negb (z =? 0)%Z
  | JFloat x => float_truthy x
  | JStr s => negb (is_empty s)
  | JList items => match items with [] => false | _ :: _ => true end
  | JDict entries => match entries with [] => false | _ :: _ => true end
  end.

(** [a or b]. *)
Definition json_or (a b : json) : json := if json_truthy a then a else b.

(** The least integer [float] cannot hold: [2**1024 - 2**970]. *)
Definition float_overflow : Z := 2 ^ 1024 - 2 ^ 970.

Definition is_null (v : json) : bool :=
  match v with
  | JNull => true
  | _ => false
  end.

(** What [_coerce_sources_payload] does with a value that is not a
    string: an object is one source, an array is its items. *)
Definition sources_of_value (v : json) : outcome (list json) :=
  match v with
  | JDict _ => Ret [v]
  | JList items => Ret items
  | _ => Raise ValueError
  end.

Section Configuration.

Context {R : Runtime} {P : NumberParsing}.

Definition _clean_string (v : json) : option string :=
  match v with
  | JNull => None
  | _ =>
      let text := strip (py_str v) in
      if is_empty text then None else Some text
  end.

(** [float(value)] is caught when it raises [TypeError] or [ValueError];
    for an integer too large it raises [OverflowError]. *)
Definition _to_float (v : json) : outcome (option pyfloat) :=
  match v with
  | JNull => Ret None
  | JStr s => if is_empty s then Ret None else Ret (float_of_str s)
  | JBool b => Ret (Some (Fin (if b then 1 else 0)))
  | JInt z =>
      if (Z.abs z <? float_overflow)%Z then Ret (Some (Fin (inject_Z z)))
      else Raise OverflowError
  | JFloat x => Ret (Some x)
  | JList _ | JDict _ => Ret None
  end.

Definition _fallback_float (v : json) (fallback : pyfloat) : outcome pyfloat :=
  result <- _to_float v ;;
  match result with
  | None => Ret fallback
  | Some x => Ret x
  end.

(** [int(value)]. *)
Definition py_int (v : json) : outcome Z :=
  match v with
  | JBool b => Ret (if b then 1 else 0)%Z
  | JInt z => Ret z
  | JFloat (Fin q) => Ret (Z.quot (Qnum q) (Z.pos (Qden q)))
  | JFloat NaN => Raise ValueError
  | JFloat _ => Raise OverflowError
  | JStr s =>
      match int_of_str s with
      | Some z => Ret z
      | None => Raise ValueError
      end
  | JNull | JList _ | JDict _ => Raise TypeError
  end.

(** [int(value or fallback)] for an integer [fallback]. *)
Definition int_or (v : json) (fallback : Z) : outcome Z :=
  if json_truthy v then py_int v else Ret fallback.

(** [{str(key): str(val) for key, val in value.items() if val is not None}]. *)
Definition str_entries (entries : list (string * json)) : list (string * string) :=
  map (fun entry => (fst entry, py_str (snd entry)))
      (filter (fun entry => negb (is_null (snd entry))) entries).

Definition _coerce_dict (v : json) : outcome (list (string * string)) :=
  match v with
  | JDict entries => Ret (str_entries entries)
  | JStr s =>
      let text := strip s in
      if is_empty text then Ret []
      else
        parsed <- loads text ;;
        match parsed with
        | Some (JDict entries) => Ret (str_entries entries)
        | _ => Ret []
        end
  | _ => Ret []
  end.

(** The call [_ensure_list(value)]: [json.loads] is called on a text that
    is not blank, and what it raises other than [JSONDecodeError] leaves
    the function; [_ensure_list] is the list returned otherwise. *)
Definition ensure_list_call (v : json) : outcome (list string) :=
  match v with
  | JStr s =>
      if is_empty (strip s) then Ret (_ensure_list v)
      else
        parsed <- loads (strip s) ;;
        Ret (_ensure_list v)
  | _ => Ret (_ensure_list v)
  end.

Definition _coerce_sources_payload (v : json) : outcome (list json) :=
  match v with
  | JNull => Ret []
  | JStr s =>
      if is_empty s then Ret []
      else
        let text := strip s in
        if is_empty text then Ret []
        else
          parsed <- loads text ;;
          match parsed with
          | None => Raise ValueError
          | Some value => sources_of_value value
          end
  | _ => sources_of_value v
  end.

(** [items or fallback] for a list [items]. *)
Definition list_or (items fallback : list string) : list string :=
  match items with
  | [] => fallback
  | item :: more => item :: more
  end.

(** The local [_patterns] of [from_dict]. *)
Definition _patterns (v : json) (fallback : list string)
  : outcome (list string) :=
  items <- ensure_list_call v ;;
  Ret (list_or items fallback).

(** [SourceConfig.from_dict]; the arguments of [cls(...)] are evaluated in
    the order they are written. *)
Definition from_dict (payload : json) (defaults : ActorSettings.t)
  : outcome SourceConfig.t :=
  match payload with
  | JDict entries =>
      let get := dict_get entries in
      match _clean_string (get "url"), _clean_string (get "orderId") with
      | Some url, Some order_id =>
          expected <-
            _to_float (json_or (get "delayHours") (get "expectedDelayHours")) ;;
          status_selectors <- ensure_list_call (get "statusSelectors") ;;
          eta_selectors <- ensure_list_call (get "etaSelectors") ;;
          promised_selectors <- ensure_list_call (get "promisedSelectors") ;;
          status_paths <- ensure_list_call (get "statusPaths") ;;
          eta_paths <- ensure_list_call (get "etaPaths") ;;
          promised_paths <- ensure_list_call (get "promisedPaths") ;;
          delay_patterns <-
            _patterns (get "delayPatterns")
                      (ActorSettings.delay_patterns defaults) ;;
          ignore_patterns <-
            _patterns (get "ignorePatterns")
                      (ActorSettings.ignore_patterns defaults) ;;
          headers <- _coerce_dict (get "headers") ;;
          metadata <- _coerce_dict (get "metadata") ;;
          minimum <- _to_float (get "minDelayHours") ;;
          Ret (SourceConfig.Build url order_id
                 (_clean_string (get "carrier"))
                 (_clean_string (get "region"))
                 (_clean_string (json_or (get "incidentId") (get "incident_id")))
                 (_clean_string
                    (json_or (get "promisedDeliveryDate") (get "promised_delivery")))
                 expected
                 status_selectors eta_selectors promised_selectors
                 status_paths eta_paths promised_paths
                 delay_patterns ignore_patterns
                 headers metadata
                 minimum
                 (lower match _clean_string (get "mode") with
                        | Some mode => mode
                        | None => "auto"
                        end)
                 (_clean_string (get "sourceLabel"))
                 (_clean_string (get "carrierStatusCode")))
      | _, _ => Raise ValueError
      end
  | _ => Raise ValueError
  end.

(** [_parse_settings], on the entries of the input object. *)
Definition _parse_settings (payload : list (string * json))
  : outcome ActorSettings.t :=
  let get := dict_get payload in
  let settings := default_settings in
  default_delay <-
    _fallback_float (get "defaultDelayHours")
                    (ActorSettings.default_delay_hours settings) ;;
  min_delay <-
    _fallback_float (get "minDelayHours")
                    (ActorSettings.min_delay_hours settings) ;;
  snapshot <-
    int_or (get "snapshotChars") (ActorSettings.snapshot_chars settings) ;;
  global_headers <- _coerce_dict (get "requestHeaders") ;;
  delay_patterns <- ensure_list_call (get "delayPatterns") ;;
  ignore_patterns <- ensure_list_call (get "ignorePatterns") ;;
  timeout <-
    _fallback_float (get "requestTimeoutSeconds")
                    (ActorSettings.request_timeout settings) ;;
  concurrency <-
    int_or (get "concurrency") (ActorSettings.concurrency settings) ;;
  Ret (ActorSettings.Build
         default_delay min_delay snapshot
         match _clean_string (get "sourceLabel") with
         | Some label => label
         | None => ActorSettings.source_label settings
         end
         global_headers
         (list_or delay_patterns DEFAULT_DELAY_PATTERNS)
         (list_or ignore_patterns DEFAULT_IGNORE_PATTERNS)
         timeout
         (Z.max 1 (Z.min concurrency 10))
         match _clean_string (get "defaultCarrierStatusCode") with
         | Some status_code => status_code
         | None => ActorSettings.carrier_status_code settings
         end).

(** The loop of [_parse_sources]: an entry that raises [ValueError] is
    skipped, another exception leaves the loop. *)
Fixpoint build_sources (entries : list json) (settings : ActorSettings.t)
  : outcome (list SourceConfig.t) :=
  match entries with
  | [] => Ret []
  | entry :: rest =>
      match from_dict entry settings with
      | Ret source =>
          sources <- build_sources rest settings ;;
          Ret (source :: sources)
      | Raise e =>
          if String.eqb e ValueError then build_sources rest settings
          else Raise e
      end
  end.

(** The source made of the top-level [url], [orderId],
    [promisedDeliveryDate] and [delayPatterns]. *)
Definition legacy_source (payload : list (string * json)) : json :=
  let get := dict_get payload in
  JDict [ ("url", get "url");
          ("orderId", json_or (get "orderId") (JStr "unknown-order"));
          ("promisedDeliveryDate", get "promisedDeliveryDate");
          ("delayPatterns", get "delayPatterns") ].

(** Lines 177-190 of [_parse_sources]: the entries to build the sources
    from.  A [ValueError] of [_coerce_sources_payload] is caught and
    leaves no entry; another exception leaves the function. *)
Definition normalized_sources (payload : list (string * json))
  : outcome (list json) :=
  entries <-
    match _coerce_sources_payload (dict_get payload "sources") with
    | Ret entries => Ret entries
    | Raise e => if String.eqb e ValueError then Ret [] else Raise e
    end ;;
  Ret match entries with
      | [] =>
          if json_truthy (dict_get payload "url") then [legacy_source payload]
          else []
      | _ :: _ => entries
      end.

Definition _parse_sources
  (payload : list (string * json)) (settings : ActorSettings.t)
  : outcome (list SourceConfig.t) :=
  entries <- normalized_sources payload ;;
  build_sources entries settings.

(** The evaluation of each source of [main], the source at position [i]
    being answered [fetch i] at the time [clock i]. *)
Fixpoint evaluate_from
  (i : nat) (sources : list SourceConfig.t) (settings : ActorSettings.t)
  (fetch : nat -> fetch_result) (clock : nat -> string)
  : list (outcome (option incident)) :=
  match sources with
  | [] => []
  | source :: rest =>
      _evaluate_source (fetch i) source settings (clock i)
      :: evaluate_from (S i) rest settings fetch clock
  end.

(** [main], on the entries of the input object: what is pushed to the
    dataset, [None] when nothing is. *)
Definition main
  (payload : list (string * json))
  (fetch : nat -> fetch_result) (clock : nat -> string)
  : outcome (option (list incident)) :=
  settings <- _parse_settings payload ;;
  sources <- _parse_sources payload settings ;;
  match sources with
  | [] => Raise ValueError
  | _ :: _ =>
      match collect_incidents (evaluate_from 0 sources settings fetch clock) with
      | [] => Ret None
      | record :: records => Ret (Some (record :: records))
      end
  end.

End Configuration.

(* ================================================================== *)
(** * A reference runtime *)
(* ================================================================== *)

(** A concrete [Runtime] on which the engine can be run.  It implements
    the library calls on a fragment of their inputs:
    - regular expressions that are a literal text, with an optional
      leading [^] and trailing [$]; a pattern holding another
      metacharacter is taken not to compile;
    - timestamps written [YYYY-MM-DDTHH:MM:SSZ];
    - JSON documents and HTML pages listed in a table, with what
      [json.loads] and [bs4] answer on them; a text that is nothing but
      more decimal digits than [int] reads makes [json.loads] raise
      [ValueError];
    - ASCII text for [str.upper], and exact rationals for [round]. *)

Module Reference.

Local Open Scope Z_scope.

Record toy_regex : Type := {
  at_start : bool;
  at_end : bool;
  literal : string
}.

Definition is_meta (c : ascii) : bool :=
  existsb (Ascii.eqb c)
    [ "\"%char; "."%char; "*"%char; "+"%char; "?"%char; "("%char; ")"%char;
      "["%char; "]"%char; "{"%char; "}"%char; "|"%char; "^"%char; "$"%char ].

Definition has_meta (s : string) : bool := negb (forallb_str (fun c => negb (is_meta c)) s).

Definition drop_last (s : string) : string := take (String.length s - 1) s.

Definition toy_compile (pattern : string) : option toy_regex :=
  let anchored := prefix "^" pattern in
  let body := if anchored then drop 1 pattern else pattern in
  let ended := String.eqb (drop (String.length body - 1) body) "$" in
  let body := if ended then drop_last body else body in
  if has_meta body then None
  else Some {| at_start := anchored; at_end := ended; literal := lower body |}.

Definition toy_escaped (pattern : string) : toy_regex :=
  {| at_start := false; at_end := false; literal := lower pattern |}.

(** The first position from [i] on at which the literal stands. *)
Fixpoint toy_find (r : toy_regex) (i : nat) (t : string) : option (nat * nat) :=
  let here :=
    prefix (literal r) t
    && (negb (at_end r)
        || (String.length t =? String.length (literal r))%nat) in
  if here then Some (i, (i + String.length (literal r))%nat)
  else match t with
       | EmptyString => None
       | String _ rest => if at_start r then None else toy_find r (S i) rest
       end.

Definition toy_search (r : toy_regex) (t : string) : option (nat * nat) :=
  toy_find r 0 (lower t).

(** Days since the epoch of a civil date, and back. *)
Definition days_from_civil (y m d : Z) : Z :=
  let y' := if m <=? 2 then y - 1 else y in
  let era := y' / 400 in
  let yoe := y' - era * 400 in
  let mp := (m + 9) mod 12 in
  let doy := (153 * mp + 2) / 5 + d - 1 in
  let doe := yoe * 365 + yoe / 4 - yoe / 100 + doy in
  era * 146097 + doe - 719468.

Definition civil_from_days (days : Z) : Z * Z * Z :=
  let z := days + 719468 in
  let era := z / 146097 in
  let doe := z - era * 146097 in
  let yoe := (doe - doe / 1460 + doe / 36524 - doe / 146096) / 365 in
  let doy := doe - (365 * yoe + yoe / 4 - yoe / 100) in
  let mp := (5 * doy + 2) / 153 in
  let d := doy - (153 * mp + 2) / 5 + 1 in
  let m := if mp <? 10 then mp + 3 else mp - 9 in
  let y := yoe + era * 400 + (if m <=? 2 then 1 else 0) in
  (y, m, d).

Definition number (s : string) : option Z :=
  if negb (is_empty s) && forallb_str isdecimal_char s
  then Some (decimal_value 0 s) else None.

Definition microsecond : Z := 1000000.

(** [YYYY-MM-DDTHH:MM:SSZ], in UTC. *)
Definition toy_date_parse (s : string) : option (Z * option Z) :=
  let field a b := number (slice s a b) in
  let mark a c := String.eqb (slice s a (a + 1)) c in
  match field 0 4, field 5 7, field 8 10, field 11 13, field 14 16, field 17 19 with
  | Some y, Some m, Some d, Some hh, Some mm, Some ss =>
      if (String.length s =? 20)%nat
         && mark 4 "-" && mark 7 "-" && mark 10 "T" && mark 13 ":"
         && mark 16 ":" && mark 19 "Z"
         && (1 <=? m) && (m <=? 12) && (1 <=? d) && (d <=? 31)
         && (hh <? 24) && (mm <? 60) && (ss <? 60)
      then Some ((((days_from_civil y m d * 24 + hh) * 60 + mm) * 60 + ss)
                  * microsecond, Some 0)
      else None
  | _, _, _, _, _, _ => None
  end.

Fixpoint zeros (n : nat) : string :=
  match n with
  | O => EmptyString
  | S k => String "0"%char (zeros k)
  end.

Definition padded (width : nat) (n : Z) : string :=
  let digits := str_of_int n in
  (zeros (width - String.length digits) ++ digits)%string.

Definition toy_isoformat (dt : Z) : string :=
  let seconds := dt / microsecond in
  let micro := dt mod microsecond in
  let '(y, m, d) := civil_from_days (seconds / 86400) in
  let secs := seconds mod 86400 in
  (padded 4 y ++ "-" ++ padded 2 m ++ "-" ++ padded 2 d ++ "T"
   ++ padded 2 (secs / 3600) ++ ":" ++ padded 2 (secs / 60 mod 60) ++ ":"
   ++ padded 2 (secs mod 60)
   ++ (if (micro =? 0)%Z then "" else "." ++ padded 6 micro)
   ++ "+00:00")%string.

(** [str(x)] for a float with an integral value. *)
Definition toy_float_str (x : pyfloat) : string :=
  match x with
  | Fin q => (str_of_int (Qnum q / Z.pos (Qden q)) ++ ".0")%string
  | PosInf => "inf"
  | NegInf => "-inf"
  | NaN => "nan"
  end.

Definition dquote : string := String "034"%char EmptyString.

Definition squote : string := String "039"%char EmptyString.

(** Serialisation with the separators [", "] and [": "], of strings that
    need no escape; [q] is the quotation mark around strings. *)
Fixpoint serialise (q : string) (names : string * string * string) (v : json)
  : string :=
  match v with
  | JNull => fst (fst names)
  | JBool true => snd (fst names)
  | JBool false => snd names
  | JInt z => str_of_int z
  | JFloat x => toy_float_str x
  | JStr s => (q ++ s ++ q)%string
  | JList items =>
      ("[" ++ String.concat ", " (map (serialise q names) items) ++ "]")%string
  | JDict entries =>
      ("{" ++ String.concat ", "
                (map (fun entry =>
                        q ++ fst entry ++ q ++ ": " ++ serialise q names (snd entry))
                     entries)
           ++ "}")%string
  end.

Definition toy_json_dumps : json -> string :=
  serialise dquote ("null", "true", "false").

Definition toy_repr : json -> string :=
  serialise squote ("None", "True", "False").

(** A parsed page: the text of the element each selector selects, and
    the text of the whole document. *)
Record page : Type := {
  elements : list (string * string);
  document_text : string
}.

Fixpoint lookup {A : Type} (key : string) (table : list (string * A)) : option A :=
  match table with
  | [] => None
  | (k, a) :: rest => if String.eqb k key then Some a else lookup key rest
  end.

Definition empty_page : page := {| elements := []; document_text := "" |}.

(** [round(x, 2)] on an exact rational: to the nearest hundredth, a tie
    going to the even one. *)
Definition toy_round2 (x : pyfloat) : pyfloat :=
  match x with
  | Fin q =>
      let n := Qnum q * 100 in
      let d := Z.pos (Qden q) in
      let lo := n / d in
      let twice := 2 * (n mod d) in
      let up := (d <? twice) || ((twice =? d) && Z.odd lo) in
      Fin (Qmake (if up then lo + 1 else lo) 100)
  | _ => x
  end.

(** A text of more decimal digits than [int] reads is an integer that
    [json.loads] refuses with [ValueError]. *)
Definition toy_loads_raises (text : string) : option string :=
  if forallb_str isdecimal_char text
     && (int_max_str_digits <? Z.of_nat (String.length text))
  then Some ValueError else None.

(** The runtime that knows the JSON [documents] and the HTML [pages]. *)
Definition runtime
  (documents : list (string * json)) (pages : list (string * page)) : Runtime :=
  {| regex := toy_regex;
     re_compile := toy_compile;
     re_compile_escaped := toy_escaped;
     re_search := toy_search;
     date_parse := toy_date_parse;
     isoformat := toy_isoformat;
     json_loads := fun body => lookup body documents;
     json_loads_raises := toy_loads_raises;
     json_dumps := toy_json_dumps;
     float_str := toy_float_str;
     container_str := toy_repr;
     soup := page;
     soup_parse := fun body =>
       match lookup body pages with
       | Some p => p
       | None => empty_page
       end;
     soup_select_text := fun p selector => Ret (lookup selector (elements p));
     soup_get_text := document_text;
     str_upper := upper_ascii;
     round2 := toy_round2 |}.

End Reference.

(* ================================================================== *)
(** * Documents and configurations of the examples *)
(* ================================================================== *)

Module Scenario.

(** The engine defaults of [ActorSettings], with patterns of the
    reference runtime's fragment. *)
Definition settings : ActorSettings.t :=
  ActorSettings.Build (Fin 48) (Fin 24) 420 "apify-actor#carrier-delay-scan"
    [] ["delayed"; "weather"] ["resolved"; "delivered"] (Fin 12) 4
    "IN_TRANSIT_DELAYED".

(** A source with nothing but its address, order and patterns. *)
Definition plain_source (order_id : string) : SourceConfig.t :=
  SourceConfig.Build "https://example.com/track" order_id None None None
    None None [] [] [] [] [] [] ["delayed"; "weather"]
    ["resolved"; "delivered"] [] [] None "auto" None None.

(** The JSON source of the specification's end-to-end scenario. *)
Definition weather_document : json :=
  JDict [ ("status", JStr "Shipment delayed due to weather");
          ("eta", JStr "2024-02-10T00:00:00Z") ].

Definition weather_body : string := Reference.toy_json_dumps weather_document.

Definition weather_source : SourceConfig.t :=
  SourceConfig.Build "https://example.com/track" "ord-1" None None None
    (Some "2024-02-08T00:00:00Z") None [] [] [] ["status"] ["eta"] []
    ["delayed"; "weather"] ["resolved"; "delivered"] [] [] None "auto"
    None None.

(** The same JSON text read as an HTML page: one paragraph holding it. *)
Definition weather_as_page : Reference.page :=
  {| Reference.elements := [("p", weather_body)];
     Reference.document_text := weather_body |}.

(** An HTML page whose selected element reads "Package delivered". *)
Definition delivered_body : string := "<html><body><p class=st>Package delivered</p><p>No delay, weather fine</p></body></html>".

Definition delivered_page : Reference.page :=
  {| Reference.elements := [(".st", "Package delivered")];
     Reference.document_text := "Package delivered No delay, weather fine" |}.

Definition delivered_source : SourceConfig.t :=
  SourceConfig.Build "https://example.com/status" "ord-2" None None None
    None None [".st"] [] [] [] [] [] ["delay"; "weather"]
    ["resolved"; "delivered"] [] [] None "auto" None None.

(** A JSON source whose body mentions the weather before its status
    field reports the delay; the first delay pattern is found in the body
    only, the second in the status. *)
Definition alert_document : json :=
  JDict [ ("note", JStr "weather alert");
          ("status", JStr "Shipment delayed") ].

Definition alert_body : string := Reference.toy_json_dumps alert_document.

Definition alert_source : SourceConfig.t :=
  SourceConfig.Build "https://example.com/alert" "ord-3" None None None
    None None [] [] [] ["status"] [] [] ["weather"; "delayed"]
    ["resolved"; "delivered"] [] [] None "json" None None.

(** An HTML page whose only text stands in a [script] element: the text
    of the selected element holds it, the text of the document, which
    leaves scripts out, is empty.  The source reads its status from that
    element and ignores the texts that [^$] matches, the empty ones. *)
Definition script_body : string := "<html><head><script>Shipment delayed</script></head><body></body></html>".

Definition script_page : Reference.page :=
  {| Reference.elements := [("script", "Shipment delayed")];
     Reference.document_text := "" |}.

Definition script_source : SourceConfig.t :=
  SourceConfig.Build "https://example.com/notice" "ord-5" None None None
    None None ["script"] [] [] [] [] [] ["delayed"] ["^$"] [] [] None "auto"
    None None.

Definition script_candidates : Candidates :=
  {| status_text := Some "Shipment delayed";
     estimated_raw := None;
     promised_raw := None;
     page_text := "" |}.

Definition runtime : Runtime :=
  Reference.runtime
    [(weather_body, weather_document); (alert_body, alert_document)]
    [(weather_body, weather_as_page); (delivered_body, delivered_page);
     (script_body, script_page)].

Definition now : string := "2024-02-09T08:00:00Z".

(** What the extraction reads from the alert and from the page. *)
Definition alert_candidates : Candidates :=
  {| status_text := Some "Shipment delayed";
     estimated_raw := None;
     promised_raw := None;
     page_text := alert_body |}.

Definition delivered_candidates : Candidates :=
  {| status_text := Some "Package delivered";
     estimated_raw := None;
     promised_raw := None;
     page_text := "Package delivered No delay, weather fine" |}.

(** Candidates of a page whose status line reports a delay. *)
Definition delayed_candidates : Candidates :=
  {| status_text := Some "Shipment delayed";
     estimated_raw := None;
     promised_raw := None;
     page_text := "Tracking: weather alert. Shipment delayed" |}.

(** A source with an explicit delay of ten hours, below the engine's
    minimum of twenty-four, and a per-source minimum of zero, of minus
    one, or none. *)
Definition ten_hours_source (threshold : option pyfloat) : SourceConfig.t :=
  with_min_delay_hours
    (with_expected_delay_hours (plain_source "ord-4") (Some (Fin 10)))
    threshold.

(** The weather source again, now declaring [html] mode, with a selector
    and a path for the status. *)
Definition forced_html_source : SourceConfig.t :=
  SourceConfig.Build "https://example.com/track" "ord-1" None None None
    None None ["p"] [] [] ["status"] [] [] ["delayed"; "weather"]
    ["resolved"; "delivered"] [] [] None "html" None None.

(** The superscript two, U+00B2. *)
Definition superscript_two : string := String (ascii_of_nat 178) EmptyString.

End Scenario.

(* ================================================================== *)
(** * Reference number parsing and a configured run *)
(* ================================================================== *)

(** [int] and [float] of a text on a fragment of their inputs: an
    optional sign and decimal digits, for [float] with an optional point
    followed by digits; surrounding whitespace is dropped.  A text outside
    the fragment is taken not to parse. *)
Module ReferenceNumbers.

Local Open Scope Z_scope.

Definition signed (s : string) : bool * string :=
  let t := strip s in
  if prefix "-" t then (true, drop 1 t)
  else if prefix "+" t then (false, drop 1 t)
  else (false, t).

Definition toy_int_of_str (s : string) : option Z :=
  let '(negative, digits) := signed s in
  match Reference.number digits with
  | Some n => Some (if negative then - n else n)
  | None => None
  end.

Definition toy_float_of_str (s : string) : option pyfloat :=
  let '(negative, body) := signed s in
  let sign := if negative then -1 else 1 in
  match split_chars (fun c => (c =? ".")%char) body with
  | [whole] =>
      match Reference.number whole with
      | Some n => Some (Fin (inject_Z (sign * n)))
      | None => None
      end
  | [whole; fraction] =>
      match Reference.number whole, Reference.number fraction with
      | Some n, Some f =>
          let scale := 10 ^ Z.of_nat (String.length fraction) in
          Some (Fin (Qmake (sign * (n * scale + f)) (Z.to_pos scale)))
      | _, _ => None
      end
  | _ => None
  end.

Definition parsing : NumberParsing :=
  {| float_of_str := toy_float_of_str;
     int_of_str := toy_int_of_str |}.

End ReferenceNumbers.

Module Run.

(** An input object: two sources given as objects, the second without
    an order id, and engine settings given as texts and numbers. *)
Definition alert_entry : json :=
  JDict [ ("url", JStr " https://example.com/alert ");
          ("orderId", JStr "ord-3");
          ("statusPaths", JStr "status");
          ("delayPatterns", JList [JStr "weather"; JStr "delayed"]);
          ("ignorePatterns", JStr "resolved, delivered");
          ("minDelayHours", JInt 0);
          ("mode", JStr "JSON");
          ("metadata", JDict [("lane", JStr "north"); ("note", JNull)]) ].

Definition nameless_entry : json :=
  JDict [ ("url", JStr "https://example.com/other") ].

Definition input : list (string * json) :=
  [ ("sources", JList [alert_entry; nameless_entry; JStr "not an object"]);
    ("minDelayHours", JInt 0);
    ("concurrency", JInt 64);
    ("snapshotChars", JStr "200");
    ("delayPatterns", JStr "delayed") ].

(** The legacy single-source input. *)
Definition legacy_input : list (string * json) :=
  [ ("sources", JStr "not json");
    ("url", JStr "https://example.com/alert") ].

End Run.

(* ================================================================== *)
(** * Notions used by the statements *)
(* ================================================================== *)

(** A text in which every whitespace character is a plain space that no
    whitespace follows. *)
Fixpoint loose (s : string) : bool :=
  match s with
  | EmptyString => true
  | String c r =>
      (if isspace c
       then Ascii.eqb c " "
            && match r with
               | EmptyString => true
               | String d _ => negb (isspace d)
               end
       else true)
      && loose r
  end.

(** A text in which every whitespace character is a plain space followed
    by a character that is not whitespace: words, one space apart, with no
    space after the last. *)
Fixpoint tidy (s : string) : bool :=
  match s with
  | EmptyString => true
  | String c r =>
      (if isspace c
       then Ascii.eqb c " "
            && match r with
               | EmptyString => false
               | String d _ => negb (isspace d)
               end
       else true)
      && tidy r
  end.

(** The text does not start with whitespace. *)
Definition starts_clean (s : string) : bool :=
  match s with
  | EmptyString => true
  | String c _ => negb (isspace c)
  end.

(** A text in normal form: words one plain space apart and nothing
    around them. *)
Definition normal (s : string) : Prop :=
  starts_clean s = true /\ tidy s = true.

(** An optional text that is absent, or present, not empty and without
    whitespace around it. *)
Definition trimmed (o : option string) : Prop :=
  forall t, o = Some t -> t <> EmptyString /\ strip t = t.

(** What [from_dict] guarantees of a source. *)
Definition well_formed (source : SourceConfig.t) : Prop :=
  trimmed (Some (SourceConfig.url source))
  /\ trimmed (Some (SourceConfig.order_id source))
  /\ trimmed (SourceConfig.carrier source)
  /\ trimmed (SourceConfig.region source)
  /\ trimmed (SourceConfig.incident_id source)
  /\ trimmed (SourceConfig.promised_delivery_date source)
  /\ trimmed (SourceConfig.source_label source)
  /\ trimmed (SourceConfig.carrier_status_code source)
  /\ lower (SourceConfig.content_mode source) = SourceConfig.content_mode source.

(** A source with other selectors and paths for the promised date. *)
Definition with_promised_lookups
  (source : SourceConfig.t) (selectors paths : list string) : SourceConfig.t :=
  let 'SourceConfig.Build url order carrier region incident promised expected
        ssel esel _ spath epath _ delay ignore headers metadata threshold
        mode label code := source in
  SourceConfig.Build url order carrier region incident promised expected
    ssel esel selectors spath epath paths delay ignore headers metadata
    threshold mode label code.

(** The keys of the emitted record, in the order of the payload. *)
Definition record_keys : list string :=
  [ "incidentId"; "orderId"; "delayHours"; "promisedDeliveryDate";
    "estimatedDelivery"; "carrierStatusCode"; "carrierStatusDescription";
    "detectedAt"; "source"; "carrier"; "region"; "rawStatusText";
    "rawEstimatedDelivery"; "rawPromisedDelivery"; "rawSnapshot";
    "matchedPattern"; "matchedText"; "metadata" ].

(** The digit tokens of the path are made of decimal digits, no more of
    them than [int] reads. *)
Definition decimal_path (path : string) : Prop :=
  forall token,
    In token (path_tokens path) ->
    isdigit token = true ->
    forallb_str isdecimal_char token = true
    /\ (Z.of_nat (String.length token) <= int_max_str_digits)%Z.

(** The keys [_parse_settings] reads. *)
Definition setting_keys : list string :=
  [ "defaultDelayHours"; "minDelayHours"; "snapshotChars"; "sourceLabel";
    "requestHeaders"; "delayPatterns"; "ignorePatterns";
    "requestTimeoutSeconds"; "concurrency"; "defaultCarrierStatusCode" ].

(** The call returned. *)
Definition returned {A : Type} (m : outcome A) : bool :=
  match m with
  | Ret _ => true
  | Raise _ => false
  end.

(** The source that holds an address, an order id, a promised date and
    pattern lists, and nothing else. *)
Definition shorthand_source
  (url order_id : string) (promised : option string)
  (delay ignore : list string) : SourceConfig.t :=
  SourceConfig.Build url order_id None None None promised None
    [] [] [] [] [] [] delay ignore [] [] None "auto" None None.

(* ================================================================== *)
(** * Properties *)
(* ================================================================== *)

(** ** Floats and strings *)

Lemma is_empty_false (s : string) : is_empty s = false <-> s <> EmptyString.
Proof.
  destruct s; simpl; split; intro H; congruence.
Qed.

Lemma is_empty_true (s : string) : is_empty s = true <-> s = EmptyString.
Proof.
  destruct s; simpl; split; intro H; congruence.
Qed.

Lemma Qltb_true (x y : Q) : Qltb x y = true <-> (x < y)%Q.
Proof.
  unfold Qltb. rewrite negb_true_iff.
  split; intro H.
  - apply Qnot_le_lt. intro L. apply Qle_bool_iff in L. congruence.
  - destruct (Qle_bool y x) eqn:E; [ | reflexivity ].
    apply Qle_bool_iff in E. exfalso. exact (Qlt_not_le _ _ H E).
Qed.

Lemma Qltb_false (x y : Q) : Qltb x y = false <-> (y <= x)%Q.
Proof.
  unfold Qltb. rewrite negb_false_iff. apply Qle_bool_iff.
Qed.

(** A float above zero is a true value. *)
Lemma positive_is_truthy (x : pyfloat) :
  float_lt zero x = true -> float_truthy x = true.
Proof.
  destruct x as [q | | |]; simpl; try reflexivity.
  intro H. apply Qltb_true in H.
  rewrite negb_true_iff.
  destruct (Qeq_bool q 0) eqn:E; [ | reflexivity ].
  apply Qeq_bool_iff in E. rewrite E in H.
  exfalso. exact (Qlt_irrefl 0 H).
Qed.

(** A false float is a zero. *)
Lemma falsy_is_zero (x : pyfloat) :
  float_truthy x = false <-> exists q, x = Fin q /\ (q == 0)%Q.
Proof.
  split.
  - destruct x as [q | | |]; simpl; try discriminate.
    rewrite negb_false_iff. intro E. apply Qeq_bool_iff in E.
    exists q. split; [ reflexivity | exact E ].
  - intros [q [-> E]]. simpl. rewrite negb_false_iff.
    apply Qeq_bool_iff. exact E.
Qed.

(** The hours between two timestamps, floored at zero. *)
Lemma floored_hours (e p : Z) :
  exists q,
    float_max (hours_between e p) zero = Fin q
    /\ (0 <= q)%Q
    /\ ((e <= p)%Z -> (q == 0)%Q)
    /\ ((p <= e)%Z -> (q == (e - p) # 3600000000)%Q).
Proof.
  unfold float_max, hours_between, zero, float_lt.
  destruct (Qltb ((e - p) # 3600000000) 0) eqn:E.
  - apply Qltb_true in E. unfold Qlt in E. simpl in E.
    exists 0%Q. split; [ reflexivity | split; [ | split ] ].
    + apply Qle_refl.
    + intros _. reflexivity.
    + intro H. exfalso. lia.
  - apply Qltb_false in E. unfold Qle in E. simpl in E.
    exists ((e - p) # 3600000000)%Q. split; [ reflexivity | split; [ | split ] ].
    + unfold Qle. simpl. lia.
    + intro H. unfold Qeq. simpl. lia.
    + intros _. reflexivity.
Qed.

(** ** C1: the three tiers of the delay *)

(** C1.  [_determine_delay_hours] follows three tiers.  An explicit
    expected delay above zero is returned as it is, whatever the
    timestamps say.  Otherwise, with a promised and an estimated timestamp
    both present, the result is the difference estimated minus promised in
    hours when that is positive and exactly zero when the estimate is not
    after the promise, so it is never negative.  Otherwise the result is
    the default fallback. *)
Theorem determine_delay_hours_three_tiers :
  forall (expected : option pyfloat) (promised estimated : option Z)
         (fallback : pyfloat),
    (forall x, expected = Some x -> float_lt zero x = true ->
       _determine_delay_hours expected promised estimated fallback = x)
    /\ ((forall x, expected = Some x -> float_lt zero x = false) ->
        forall p e, promised = Some p -> estimated = Some e ->
        exists q,
          _determine_delay_hours expected promised estimated fallback = Fin q
          /\ (0 <= q)%Q
          /\ ((e <= p)%Z -> (q == 0)%Q)
          /\ ((p <= e)%Z -> (q == (e - p) # 3600000000)%Q))
    /\ ((forall x, expected = Some x -> float_lt zero x = false) ->
        promised = None \/ estimated = None ->
        _determine_delay_hours expected promised estimated fallback = fallback).
Proof.
  intros expected promised estimated fallback.
  assert (skip : (forall x, expected = Some x -> float_lt zero x = false) ->
                 _determine_delay_hours expected promised estimated fallback
                 = match promised, estimated with
                   | Some p, Some e => float_max (hours_between e p) zero
                   | _, _ => fallback
                   end).
  { intro H. unfold _determine_delay_hours.
    destruct expected as [x |]; [ | reflexivity ].
    rewrite (H x eq_refl). rewrite andb_false_r. reflexivity. }
  split; [ | split ].
  - intros x -> H. unfold _determine_delay_hours.
    rewrite H, (positive_is_truthy x H). reflexivity.
  - intros H p e -> ->. rewrite (skip H). apply floored_hours.
  - intros H [-> | ->]; rewrite (skip H).
    + reflexivity.
    + destruct promised; reflexivity.
Qed.

(** The three tiers at work: an explicit twelve hours against timestamps
    two hours apart; sixty hours from 2024-01-01T00:00Z to
    2024-01-03T12:00Z; the fallback when the promise is missing. *)
Lemma determine_delay_hours_three_tiers_witness :
  _determine_delay_hours (Some (Fin 12)) (Some 0%Z) (Some 7200000000%Z) (Fin 48)
  = Fin 12
  /\ (exists q,
        _determine_delay_hours None (Some 1704067200000000%Z)
          (Some 1704283200000000%Z) (Fin 48) = Fin q
        /\ (q == 60)%Q)
  /\ _determine_delay_hours (Some (Fin 0)) None (Some 0%Z) (Fin 48) = Fin 48.
Proof.
  split; [ | split ].
  - exact (proj1 (determine_delay_hours_three_tiers
                    (Some (Fin 12)) (Some 0%Z) (Some 7200000000%Z) (Fin 48))
                 (Fin 12) eq_refl eq_refl).
  - destruct (proj1 (proj2 (determine_delay_hours_three_tiers
                    None (Some 1704067200000000%Z) (Some 1704283200000000%Z)
                    (Fin 48)))
                (fun x H => ltac:(discriminate H))
                1704067200000000%Z 1704283200000000%Z eq_refl eq_refl)
      as [q [Hq [_ [_ Hh]]]].
    exists q. split; [ exact Hq | ].
    rewrite Hh; [ reflexivity | discriminate ].
  - apply (proj2 (proj2 (determine_delay_hours_three_tiers
                    (Some (Fin 0)) None (Some 0%Z) (Fin 48)))).
    + intros x H. injection H as <-. reflexivity.
    + left. reflexivity.
Defined.

(** ** Pattern matching *)

Section Matching.

Context {R : Runtime}.

Lemma found_in_search (pattern text : string) :
  found_in pattern text = false <-> re_search (compile pattern) text = None.
Proof.
  unfold found_in. destruct (re_search (compile pattern) text) as [span |].
  - split; discriminate.
  - split; reflexivity.
Qed.

(** [find_in] returns the first pattern found, tagged with the origin. *)
Lemma find_in_some (text : string) (patterns : list string) (origin : string)
      (m : PatternMatch.t) :
  find_in text patterns origin = Some m ->
  PatternMatch.origin m = origin
  /\ first_found patterns text (PatternMatch.pattern m).
Proof.
  induction patterns as [| pattern rest IH]; simpl; [ discriminate | ].
  destruct (re_search (compile pattern) text) as [[s e] |] eqn:E.
  - intro H. injection H as <-. simpl. split; [ reflexivity | ].
    exists [], rest. repeat split.
    + unfold found_in. rewrite E. reflexivity.
    + intros p [].
  - intro H. destruct (IH H) as [Ho [before [after [Hp [Hf Hb]]]]].
    split; [ exact Ho | ].
    exists (pattern :: before), after. repeat split.
    + simpl. rewrite Hp. reflexivity.
    + exact Hf.
    + intros p [<- | Hin].
      * apply found_in_search. exact E.
      * apply Hb. exact Hin.
Qed.

Lemma find_in_none (text : string) (patterns : list string) (origin : string) :
  find_in text patterns origin = None
  <-> forall p, In p patterns -> found_in p text = false.
Proof.
  induction patterns as [| pattern rest IH]; simpl.
  - split; [ intros _ p [] | reflexivity ].
  - destruct (re_search (compile pattern) text) as [[s e] |] eqn:E.
    + split; [ discriminate | ].
      intro H. specialize (H pattern (or_introl eq_refl)).
      apply found_in_search in H. congruence.
    + rewrite IH. split.
      * intros H p [<- | Hin]; [ apply found_in_search; exact E | apply H; exact Hin ].
      * intros H p Hin. apply H. right. exact Hin.
Qed.


Lemma matches_in_spec (text : string) (patterns : list string) :
  matches_in text patterns = true
  <-> exists p, In p patterns /\ found_in p text = true.
Proof.
  induction patterns as [| pattern rest IH]; simpl.
  - split; [ discriminate | intros [p [[] _]] ].
  - destruct (re_search (compile pattern) text) as [span |] eqn:E.
    + split; [ | reflexivity ]. intros _. exists pattern. split.
      * left. reflexivity.
      * unfold found_in. rewrite E. reflexivity.
    + rewrite IH. split.
      * intros [p [Hin Hf]]. exists p. split; [ right; exact Hin | exact Hf ].
      * intros [p [[<- | Hin] Hf]].
        -- apply found_in_search in E. congruence.
        -- exists p. split; assumption.
Qed.

(** [_matches_pattern] holds exactly when one of the patterns matches the
    candidate. *)
Lemma matches_pattern_spec (candidate : option string) (patterns : list string) :
  _matches_pattern candidate patterns = true
  <-> exists p, In p patterns /\ matches p candidate.
Proof.
  unfold _matches_pattern, matches.
  destruct candidate as [t |].
  - destruct (is_empty t) eqn:E.
    + split; [ discriminate | ].
      intros [p [_ [t' [Ht [Hne _]]]]]. injection Ht as <-.
      apply is_empty_true in E. contradiction.
    + rewrite matches_in_spec. apply is_empty_false in E. split.
      * intros [p [Hin Hf]]. exists p. split; [ exact Hin | ].
        exists t. repeat split; assumption.
      * intros [p [Hin [t' [Ht [_ Hf]]]]]. injection Ht as <-.
        exists p. split; assumption.
  - split; [ discriminate | ].
    intros [p [_ [t [Ht _]]]]. discriminate.
Qed.

(** [_find_pattern] finds nothing exactly when no pattern matches the
    candidate. *)
Lemma find_pattern_none
      (candidate : option string) (patterns : list string) (origin : string) :
  _find_pattern candidate patterns origin = None
  <-> forall p, In p patterns -> ~ matches p candidate.
Proof.
  unfold _find_pattern, matches.
  destruct candidate as [t |].
  - destruct (is_empty t) eqn:E.
    + split; [ | reflexivity ].
      intros _ p _ [t' [Ht [Hne _]]]. injection Ht as <-.
      apply is_empty_true in E. contradiction.
    + rewrite find_in_none. apply is_empty_false in E. split.
      * intros H p Hin [t' [Ht [_ Hf]]]. injection Ht as <-.
        rewrite (H p Hin) in Hf. discriminate.
      * intros H p Hin. destruct (found_in p t) eqn:F; [ | reflexivity ].
        exfalso. apply (H p Hin). exists t. repeat split; assumption.
  - split; [ | reflexivity ].
    intros _ p _ [t [Ht _]]. discriminate.
Qed.

(** ** Extraction *)




End Matching.

(** ** C2: the status candidate comes first *)



(** ** C3: the ignore check comes before everything else *)

(** C3, as the claim states it, fails: the ignore pattern [^$] is found
    in the full-text body of the page, which is empty, yet
    [_matches_pattern] answers false on an empty text without trying the
    patterns, and the source, whose status holds a delay pattern, yields
    an incident. *)
Lemma empty_body_is_never_ignored :
  @extract_candidates Scenario.runtime "text/html" Scenario.script_body
    Scenario.script_source = Ret Scenario.script_candidates
  /\ SourceConfig.ignore_patterns Scenario.script_source = ["^$"]
  /\ @found_in Scenario.runtime "^$" (page_text Scenario.script_candidates)
     = true
  /\ @_matches_pattern Scenario.runtime
       (Some (page_text Scenario.script_candidates)) ["^$"] = false
  /\ exists record,
       @_evaluate_source Scenario.runtime
         (Response "text/html" Scenario.script_body) Scenario.script_source
         Scenario.settings Scenario.now = Ret (Some record)
       /\ In ("orderId", VStr "ord-5") record.
Proof.
  split; [ vm_compute; reflexivity | ].
  split; [ reflexivity | ].
  split; [ vm_compute; reflexivity | ].
  split; [ reflexivity | ].
  eexists. split; [ vm_compute; reflexivity | ].
  simpl. tauto.
Qed.

(** C3, amended.  When one of the ignore patterns matches the status
    candidate or the full-text body extracted from a response, a
    candidate that is absent or empty being matched by no pattern, the
    source yields no incident, whatever the delay patterns, the
    timestamps and the thresholds are. *)
Theorem ignore_match_discards_source :
  forall (R : Runtime) (content_type body : string) (source : SourceConfig.t)
         (settings : ActorSettings.t) (detected_at : string) (x : Candidates),
    extract_candidates content_type body source = Ret x ->
    (exists pattern,
        In pattern (SourceConfig.ignore_patterns source)
        /\ (matches pattern (status_text x)
            \/ matches pattern (Some (page_text x)))) ->
    _evaluate_source (Response content_type body) source settings detected_at
    = Ret None
    /\ collect_incidents
         [_evaluate_source (Response content_type body) source settings
            detected_at] = [].
Proof.
  intros R content_type body source settings detected_at x Hx
         [pattern [Hin Hm]].
  assert (E : ignored x source = true).
  { unfold ignored. apply orb_true_iff.
    destruct Hm as [Hm | Hm]; [ left | right ];
      apply matches_pattern_spec; exists pattern; split; assumption. }
  assert (Hr : _evaluate_source (Response content_type body) source settings
                 detected_at = Ret None).
  { simpl. rewrite Hx. unfold assess_candidates. rewrite E. reflexivity. }
  rewrite Hr. split; reflexivity.
Qed.

(** The page whose status reads [Package delivered]: no incident, while
    the delay pattern [weather] matches its body. *)
Lemma ignore_match_discards_source_witness :
  @_evaluate_source Scenario.runtime
    (Response "text/html; charset=utf-8" Scenario.delivered_body)
    Scenario.delivered_source Scenario.settings Scenario.now = Ret None
  /\ @matches Scenario.runtime "weather"
       (Some (page_text Scenario.delivered_candidates)).
Proof.
  assert (Hx : @extract_candidates Scenario.runtime "text/html; charset=utf-8"
                 Scenario.delivered_body Scenario.delivered_source
               = Ret Scenario.delivered_candidates)
    by (vm_compute; reflexivity).
  split.
  - apply (ignore_match_discards_source Scenario.runtime
             "text/html; charset=utf-8" Scenario.delivered_body
             Scenario.delivered_source Scenario.settings Scenario.now
             Scenario.delivered_candidates Hx).
    exists "delivered". split.
    + right. left. reflexivity.
    + left. exists "Package delivered".
      split; [ reflexivity | split; [ discriminate | reflexivity ] ].
  - exists "Package delivered No delay, weather fine".
    split; [ reflexivity | split; [ discriminate | reflexivity ] ].
Defined.

(** ** C4: the derived incident identifier *)

Lemma hexdigest_length (s : string) : String.length (MD5.hexdigest s) = 32.
Proof.
  unfold MD5.hexdigest. destruct (MD5.digest (MD5.utf8 s)) as [a b c d].
  reflexivity.
Qed.

Lemma take_length (n : nat) (s : string) :
  n <= String.length s -> String.length (take n s) = n.
Proof.
  revert s. induction n as [| n IH]; intros s H; [ reflexivity | ].
  destruct s as [| c r]; simpl in *; [ lia | ].
  rewrite IH; [ reflexivity | lia ].
Qed.

(** C4, as the claim states it, fails: the identifier derived for the
    order [ord-1] holds the order id in upper case, while the stated form
    [PREFIX-{orderId}-{hash}] with only the hash in upper case holds it
    as given. *)
Lemma derived_id_uppercases_order_id :
  @_build_incident_id Scenario.runtime (Scenario.plain_source "ord-1")
  = "APIFY-ORD-1-0A7E11EA"
  /\ "APIFY-" ++ "ord-1" ++ "-"
     ++ upper_ascii (take 8 (MD5.hexdigest ("ord-1" ++ ":" ++ "https://example.com/track")))
     = "APIFY-ord-1-0A7E11EA".
Proof.
  split; vm_compute; reflexivity.
Qed.

(** C4, amended.  For a source that declares no incident id, the derived
    identifier is the upper-case form of the whole text
    [APIFY-{orderId}-{hash}], the order id included, where [hash] is the
    first eight hexadecimal characters of the MD5 digest of
    [orderId:url].  It depends on the order id and the address only: two
    such sources with the same pair get the same identifier. *)
Theorem derived_incident_id_upper_of_whole :
  forall (R : Runtime) (source : SourceConfig.t),
    truthy (SourceConfig.incident_id source) = false ->
    let hash :=
      take 8 (MD5.hexdigest
                (SourceConfig.order_id source ++ ":" ++ SourceConfig.url source)) in
    _build_incident_id source
    = str_upper ("APIFY-" ++ SourceConfig.order_id source ++ "-" ++ hash)
    /\ String.length hash = 8
    /\ forall other,
        truthy (SourceConfig.incident_id other) = false ->
        SourceConfig.order_id other = SourceConfig.order_id source ->
        SourceConfig.url other = SourceConfig.url source ->
        _build_incident_id other = _build_incident_id source.
Proof.
  intros R source H.
  assert (derived : forall s, truthy (SourceConfig.incident_id s) = false ->
            _build_incident_id s
            = str_upper ("APIFY-" ++ SourceConfig.order_id s ++ "-"
                         ++ take 8 (MD5.hexdigest
                              (SourceConfig.order_id s ++ ":" ++ SourceConfig.url s)))).
  { intros s Hs. unfold _build_incident_id.
    destruct (SourceConfig.incident_id s) as [id |]; [ | reflexivity ].
    simpl in Hs. apply negb_false_iff in Hs. rewrite Hs. reflexivity. }
  cbv zeta. split; [ exact (derived source H) | split ].
  - apply take_length. rewrite hexdigest_length. lia.
  - intros other Ho Eo Eu.
    rewrite (derived other Ho), (derived source H), Eo, Eu. reflexivity.
Qed.

(** The identifier derived for the order [ord-1]. *)
Lemma derived_incident_id_upper_of_whole_witness :
  @_build_incident_id Scenario.runtime (Scenario.plain_source "ord-1")
  = upper_ascii ("APIFY-" ++ "ord-1" ++ "-"
                 ++ take 8 (MD5.hexdigest ("ord-1" ++ ":" ++ "https://example.com/track"))).
Proof.
  exact (proj1 (derived_incident_id_upper_of_whole Scenario.runtime
                  (Scenario.plain_source "ord-1") eq_refl)).
Defined.

(** ** C5: the emitted record is sparse *)

Lemma sparse_has_no_blank (payload : incident) (key : string) (v : value) :
  In (key, v) (sparse payload) ->
  v <> VNone /\ v <> VStr EmptyString /\ v <> VList [].
Proof.
  unfold sparse. intro H. apply filter_In in H. destruct H as [_ H].
  simpl in H. apply negb_true_iff in H.
  repeat split; intros ->; discriminate.
Qed.

(** C5.  Every record the evaluator emits is sparse: none of its keys
    holds [None], the empty string or the empty list. *)
Theorem emitted_incident_is_sparse :
  forall (R : Runtime) (fetched : fetch_result) (source : SourceConfig.t)
         (settings : ActorSettings.t) (detected_at : string) (record : incident),
    _evaluate_source fetched source settings detected_at = Ret (Some record) ->
    forall key v,
      In (key, v) record ->
      v <> VNone /\ v <> VStr EmptyString /\ v <> VList [].
Proof.
  intros R fetched source settings detected_at record H key v Hin.
  destruct fetched as [| | content_type body]; simpl in H; try discriminate.
  destruct (extract_candidates content_type body source) as [x | e];
    [ | discriminate ].
  injection H as H. unfold assess_candidates in H.
  destruct (ignored x source); [ discriminate | ].
  destruct (select_delay_match x source) as [m |]; [ | discriminate ].
  destruct (float_lt _ _); [ discriminate | ].
  injection H as <-. unfold build_incident in Hin. cbv zeta in Hin.
  exact (sparse_has_no_blank _ _ _ Hin).
Qed.

(** The record emitted for the weather source. *)
Lemma emitted_incident_is_sparse_witness :
  exists record,
    @_evaluate_source Scenario.runtime
      (Response "application/json" Scenario.weather_body)
      Scenario.weather_source Scenario.settings Scenario.now
    = Ret (Some record)
    /\ In ("carrierStatusDescription", VStr "Shipment delayed due to weather")
          record
    /\ forall key v,
        In (key, v) record ->
        v <> VNone /\ v <> VStr EmptyString /\ v <> VList [].
Proof.
  destruct (@_evaluate_source Scenario.runtime
              (Response "application/json" Scenario.weather_body)
              Scenario.weather_source Scenario.settings Scenario.now)
    as [[record |] | e] eqn:E.
  - exists record. split; [ reflexivity | split ].
    + vm_compute in E. injection E as <-. simpl. tauto.
    + exact (emitted_incident_is_sparse Scenario.runtime _ _ _ _ _ E).
  - vm_compute in E. discriminate E.
  - vm_compute in E. discriminate E.
Defined.

(** ** C6 and C10: the minimum-delay threshold *)

Section Threshold.

Context {R : Runtime}.

(** The threshold in force: the per-source one when it is present and
    not a zero, the engine's otherwise. *)
Lemma effective_min_delay_cases (source : SourceConfig.t) (settings : ActorSettings.t) :
  (forall o, SourceConfig.min_delay_hours source = Some o ->
             float_truthy o = true ->
             effective_min_delay source settings = o)
  /\ (forall o, SourceConfig.min_delay_hours source = Some o ->
                float_truthy o = false ->
                effective_min_delay source settings
                = ActorSettings.min_delay_hours settings)
  /\ (SourceConfig.min_delay_hours source = None ->
      effective_min_delay source settings
      = ActorSettings.min_delay_hours settings).
Proof.
  unfold effective_min_delay. repeat split.
  - intros o -> ->. reflexivity.
  - intros o -> ->. reflexivity.
  - intros ->. reflexivity.
Qed.

(** After the ignore check and the delay match, the threshold alone
    decides. *)
Lemma assess_after_match
      (x : Candidates) (source : SourceConfig.t) (settings : ActorSettings.t)
      (detected_at : string) (m : PatternMatch.t) :
  ignored x source = false ->
  select_delay_match x source = Some m ->
  assess_candidates x source settings detected_at
  = if float_lt (delay_hours_of x m source settings)
                (effective_min_delay source settings)
    then None
    else Some (build_incident x m source settings detected_at).
Proof.
  intros Hi Hm. unfold assess_candidates. rewrite Hi, Hm. reflexivity.
Qed.

(** The per-source threshold is read by [effective_min_delay] only. *)
Lemma assess_with_min_delay_hours
      (x : Candidates) (source : SourceConfig.t) (settings : ActorSettings.t)
      (detected_at : string) (threshold : option pyfloat) :
  effective_min_delay (with_min_delay_hours source threshold) settings
  = effective_min_delay source settings ->
  assess_candidates x (with_min_delay_hours source threshold) settings detected_at
  = assess_candidates x source settings detected_at.
Proof.
  intro H. unfold assess_candidates. rewrite H.
  destruct source. reflexivity.
Qed.

End Threshold.

(** C6, as the claim states it, fails: a per-source minimum of zero is
    present, and ten hours are not below zero, yet the threshold in force
    is the engine's twenty-four hours and the source is discarded. *)
Lemma zero_override_is_not_the_threshold :
  SourceConfig.min_delay_hours (Scenario.ten_hours_source (Some (Fin 0)))
  = Some (Fin 0)
  /\ effective_min_delay (Scenario.ten_hours_source (Some (Fin 0)))
                         Scenario.settings = Fin 24
  /\ (exists m,
        @select_delay_match Scenario.runtime Scenario.delayed_candidates
          (Scenario.ten_hours_source (Some (Fin 0))) = Some m
        /\ @delay_hours_of Scenario.runtime Scenario.delayed_candidates m
             (Scenario.ten_hours_source (Some (Fin 0))) Scenario.settings
           = Fin 10)
  /\ float_lt (Fin 10) (Fin 0) = false
  /\ @assess_candidates Scenario.runtime Scenario.delayed_candidates
       (Scenario.ten_hours_source (Some (Fin 0))) Scenario.settings
       Scenario.now = None.
Proof.
  split; [ reflexivity | split; [ reflexivity | split; [ | split ] ] ].
  - eexists. split; vm_compute; reflexivity.
  - reflexivity.
  - vm_compute. reflexivity.
Qed.

(** C6, amended.  For a source that passed the ignore check and has a
    delay match, the threshold in force is the per-source minimum when
    one is present and is not zero, and the engine's minimum otherwise.
    The source is discarded exactly when its delay-hours are below that
    threshold, and the comparison is the same whichever tier of
    [_determine_delay_hours] produced the hours. *)
Theorem threshold_applies_to_every_tier :
  forall (R : Runtime) (x : Candidates) (source : SourceConfig.t)
         (settings : ActorSettings.t) (detected_at : string)
         (m : PatternMatch.t),
    ignored x source = false ->
    select_delay_match x source = Some m ->
    ((forall o, SourceConfig.min_delay_hours source = Some o ->
                float_truthy o = true ->
                effective_min_delay source settings = o)
     /\ (forall o, SourceConfig.min_delay_hours source = Some o ->
                   float_truthy o = false ->
                   effective_min_delay source settings
                   = ActorSettings.min_delay_hours settings)
     /\ (SourceConfig.min_delay_hours source = None ->
         effective_min_delay source settings
         = ActorSettings.min_delay_hours settings))
    /\ delay_hours_of x m source settings
       = _determine_delay_hours (SourceConfig.expected_delay_hours source)
           (promised_dt_of x) (estimated_dt_of x m settings)
           (ActorSettings.default_delay_hours settings)
    /\ (float_lt (delay_hours_of x m source settings)
                 (effective_min_delay source settings) = true ->
        assess_candidates x source settings detected_at = None)
    /\ (float_lt (delay_hours_of x m source settings)
                 (effective_min_delay source settings) = false ->
        assess_candidates x source settings detected_at
        = Some (build_incident x m source settings detected_at)).
Proof.
  intros R x source settings detected_at m Hi Hm.
  split; [ apply effective_min_delay_cases | ].
  split; [ reflexivity | ].
  rewrite (assess_after_match x source settings detected_at m Hi Hm).
  split; intros ->; reflexivity.
Qed.

(** Ten explicit hours are below the engine's twenty-four and the source
    is discarded; the fallback of forty-eight hours is not, and the record
    is built. *)
Lemma threshold_applies_to_every_tier_witness :
  @assess_candidates Scenario.runtime Scenario.delayed_candidates
    (Scenario.ten_hours_source None) Scenario.settings Scenario.now = None
  /\ @assess_candidates Scenario.runtime Scenario.delayed_candidates
       (Scenario.plain_source "ord-5") Scenario.settings Scenario.now
     = Some (@build_incident Scenario.runtime Scenario.delayed_candidates
               (PatternMatch.Build "delayed" "delayed" 9 16 "status")
               (Scenario.plain_source "ord-5") Scenario.settings Scenario.now).
Proof.
  split.
  - apply (proj1 (proj2 (proj2
             (threshold_applies_to_every_tier Scenario.runtime
                Scenario.delayed_candidates (Scenario.ten_hours_source None)
                Scenario.settings Scenario.now
                (PatternMatch.Build "delayed" "delayed" 9 16 "status")
                eq_refl eq_refl)))).
    reflexivity.
  - apply (proj2 (proj2 (proj2
             (threshold_applies_to_every_tier Scenario.runtime
                Scenario.delayed_candidates (Scenario.plain_source "ord-5")
                Scenario.settings Scenario.now
                (PatternMatch.Build "delayed" "delayed" 9 16 "status")
                eq_refl eq_refl)))).
    reflexivity.
Defined.

(** C10, as the claim states it, fails: a per-source minimum of minus one
    is not positive, yet it is the threshold in force, and the source
    whose ten hours are below the engine's twenty-four is emitted where
    the same source without an override is discarded. *)
Lemma negative_override_takes_effect :
  SourceConfig.min_delay_hours (Scenario.ten_hours_source (Some (Fin (-1))))
  = Some (Fin (-1))
  /\ float_lt zero (Fin (-1)) = false
  /\ effective_min_delay (Scenario.ten_hours_source (Some (Fin (-1))))
                         Scenario.settings = Fin (-1)
  /\ (exists record,
        @assess_candidates Scenario.runtime Scenario.delayed_candidates
          (Scenario.ten_hours_source (Some (Fin (-1)))) Scenario.settings
          Scenario.now = Some record)
  /\ @assess_candidates Scenario.runtime Scenario.delayed_candidates
       (Scenario.ten_hours_source None) Scenario.settings Scenario.now = None.
Proof.
  split; [ reflexivity | split; [ reflexivity | split; [ reflexivity | split ] ] ].
  - eexists. vm_compute. reflexivity.
  - vm_compute. reflexivity.
Qed.

(** C10, amended.  A per-source minimum equal to zero is treated as if it
    were absent: the engine's minimum is the threshold in force, and the
    source is assessed as the same source without the override is, so an
    override of zero does not disable the check.  Every other per-source
    minimum, positive or negative, infinite or not a number, is itself
    the threshold in force. *)
Theorem zero_override_is_treated_as_absent :
  forall (R : Runtime) (x : Candidates) (source : SourceConfig.t)
         (settings : ActorSettings.t) (detected_at : string),
    (forall q,
        SourceConfig.min_delay_hours source = Some (Fin q) ->
        (q == 0)%Q ->
        effective_min_delay source settings
        = ActorSettings.min_delay_hours settings
        /\ assess_candidates x source settings detected_at
           = assess_candidates x (with_min_delay_hours source None) settings
               detected_at)
    /\ (forall override,
           SourceConfig.min_delay_hours source = Some override ->
           (forall q, override = Fin q -> ~ (q == 0)%Q) ->
           float_truthy override = true
           /\ effective_min_delay source settings = override).
Proof.
  intros R x source settings detected_at.
  assert (G : forall override,
             SourceConfig.min_delay_hours source = Some override ->
             (forall q, override = Fin q -> ~ (q == 0)%Q) ->
             float_truthy override = true
             /\ effective_min_delay source settings = override).
  { intros override Ho Hnz.
    assert (T : float_truthy override = true).
    { destruct (float_truthy override) eqn:F; [ reflexivity | ].
      apply falsy_is_zero in F. destruct F as [q [Eq Hz]].
      exfalso. exact (Hnz q Eq Hz). }
    split; [ exact T | ].
    exact (proj1 (effective_min_delay_cases source settings) _ Ho T). }
  split; [ | exact G ].
  intros q Hq Hz.
  assert (F : float_truthy (Fin q) = false).
  { apply falsy_is_zero. exists q. split; [ reflexivity | exact Hz ]. }
  assert (E : effective_min_delay source settings
              = ActorSettings.min_delay_hours settings).
  { exact (proj1 (proj2 (effective_min_delay_cases source settings)) _ Hq F). }
  split; [ exact E | ].
  symmetry. apply assess_with_min_delay_hours.
  rewrite E. destruct source. reflexivity.
Qed.

(** An override of zero leaves the engine's twenty-four hours in force;
    an override of thirty-six replaces them, and so does an override that
    is not a number. *)
Lemma zero_override_is_treated_as_absent_witness :
  effective_min_delay (Scenario.ten_hours_source (Some (Fin 0)))
                      Scenario.settings = Fin 24
  /\ effective_min_delay (Scenario.ten_hours_source (Some (Fin 36)))
                         Scenario.settings = Fin 36
  /\ effective_min_delay (Scenario.ten_hours_source (Some NaN))
                         Scenario.settings = NaN.
Proof.
  split; [ | split ].
  - exact (proj1 (proj1 (zero_override_is_treated_as_absent Scenario.runtime
                    Scenario.delayed_candidates
                    (Scenario.ten_hours_source (Some (Fin 0)))
                    Scenario.settings Scenario.now)
                  0%Q eq_refl (Qeq_refl 0))).
  - apply (proj2 (zero_override_is_treated_as_absent Scenario.runtime
                    Scenario.delayed_candidates
                    (Scenario.ten_hours_source (Some (Fin 36)))
                    Scenario.settings Scenario.now)
                 (Fin 36) eq_refl).
    intros q Eq. injection Eq as <-. discriminate.
  - apply (proj2 (zero_override_is_treated_as_absent Scenario.runtime
                    Scenario.delayed_candidates
                    (Scenario.ten_hours_source (Some NaN))
                    Scenario.settings Scenario.now)
                 NaN eq_refl).
    intros q Eq. discriminate Eq.
Defined.

(** ** C7: path resolution *)

(** C7, where the code departs from the claim.  [str.isdigit] accepts
    the superscript two, [int] does not read it: resolving a path with
    such a token against a sequence raises [ValueError] instead of
    yielding [None]. *)
Theorem resolve_json_path_raises_on_superscript :
  isdigit Scenario.superscript_two = true
  /\ _resolve_json_path (JList [JStr "a"; JStr "b"]) Scenario.superscript_two
     = Raise ValueError
  /\ _resolve_json_path
       (JDict [("items", JList [JStr "a"; JStr "b"])])
       ("items[" ++ Scenario.superscript_two ++ "]")
     = Raise ValueError.
Proof.
  repeat split; vm_compute; reflexivity.
Qed.

(** ** C8: the extraction mode *)

(** C8, as the claim states it, fails: the source declares [html] mode,
    the content type is [application/json], and the candidates are read
    in JSON mode, the status from the path and not from the selector. *)
Lemma forced_html_yields_to_json_content_type :
  SourceConfig.content_mode Scenario.forced_html_source = "html"
  /\ is_json_mode (lower "application/json") Scenario.forced_html_source = true
  /\ @extract_candidates Scenario.runtime "application/json"
       Scenario.weather_body Scenario.forced_html_source
     = @json_candidates Scenario.runtime Scenario.weather_body
         Scenario.forced_html_source
  /\ (exists x,
        @extract_candidates Scenario.runtime "application/json"
          Scenario.weather_body Scenario.forced_html_source = Ret x
        /\ status_text x = Some "Shipment delayed due to weather")
  /\ (exists y,
        @html_candidates Scenario.runtime Scenario.weather_body
          Scenario.forced_html_source = Ret y
        /\ status_text y = Some Scenario.weather_body).
Proof.
  split; [ reflexivity | split; [ reflexivity | split; [ reflexivity | split ] ] ].
  - eexists. split; vm_compute; reflexivity.
  - eexists. split; vm_compute; reflexivity.
Qed.

(** C8, amended.  A source that declares [json] mode is extracted in JSON
    mode whatever the content type is.  A content type that contains
    [application/json] selects JSON mode for every source, one that
    declares [html] mode included.  HTML mode is used when the content
    type does not contain [application/json] and the source does not
    declare [json] mode. *)
Theorem extraction_mode_selection :
  forall (R : Runtime) (content_type body : string) (source : SourceConfig.t),
    (SourceConfig.content_mode source = "json" ->
     extract_candidates content_type body source = json_candidates body source)
    /\ (contains "application/json" (lower content_type) = true ->
        extract_candidates content_type body source
        = json_candidates body source)
    /\ (contains "application/json" (lower content_type) = false ->
        SourceConfig.content_mode source <> "json" ->
        extract_candidates content_type body source
        = html_candidates body source).
Proof.
  intros R content_type body source.
  unfold extract_candidates, is_json_mode. repeat split.
  - intros ->. rewrite orb_true_r. reflexivity.
  - intros ->. reflexivity.
  - intros -> H. apply String.eqb_neq in H. rewrite H. reflexivity.
Qed.

(** A declared [json] mode under an HTML content type, and a plain HTML
    source. *)
Lemma extraction_mode_selection_witness :
  @extract_candidates Scenario.runtime "text/html" Scenario.alert_body
    Scenario.alert_source
  = @json_candidates Scenario.runtime Scenario.alert_body Scenario.alert_source
  /\ @extract_candidates Scenario.runtime "text/html" Scenario.delivered_body
       Scenario.delivered_source
     = @html_candidates Scenario.runtime Scenario.delivered_body
         Scenario.delivered_source.
Proof.
  split.
  - exact (proj1 (extraction_mode_selection Scenario.runtime "text/html"
                    Scenario.alert_body Scenario.alert_source) eq_refl).
  - apply (proj2 (proj2 (extraction_mode_selection Scenario.runtime "text/html"
                    Scenario.delivered_body Scenario.delivered_source))).
    + reflexivity.
    + discriminate.
Defined.

(** ** C9: list-valued configuration fields *)

Lemma rstrip_idempotent (s : string) : rstrip (rstrip s) = rstrip s.
Proof.
  induction s as [| c r IH]; [ reflexivity | ].
  simpl. destruct (isspace c && is_empty (rstrip r)) eqn:E; [ reflexivity | ].
  simpl. rewrite IH, E. reflexivity.
Qed.

Lemma lstrip_head (s : string) :
  lstrip s = EmptyString
  \/ exists c r, lstrip s = String c r /\ isspace c = false.
Proof.
  induction s as [| c r IH]; [ left; reflexivity | ].
  simpl. destruct (isspace c) eqn:E; [ exact IH | ].
  right. exists c, r. split; [ reflexivity | exact E ].
Qed.

Lemma strip_idempotent (s : string) : strip (strip s) = strip s.
Proof.
  unfold strip. destruct (lstrip_head s) as [-> | [c [r [-> E]]]];
    [ reflexivity | ].
  simpl. rewrite E. simpl. rewrite E. simpl.
  rewrite rstrip_idempotent, E. reflexivity.
Qed.

(** A text without a separator is one piece. *)
Lemma split_runs_one_piece (sep : ascii -> bool) (in_run : bool) (s : string) :
  forallb_str (fun c => negb (sep c)) s = true ->
  s <> EmptyString ->
  split_runs_from sep in_run s = [s].
Proof.
  revert in_run. induction s as [| c r IH]; intros in_run H Hne;
    [ congruence | ].
  simpl in *. apply andb_true_iff in H. destruct H as [Hc Hr].
  apply negb_true_iff in Hc. rewrite Hc.
  destruct r as [| c' r'].
  - reflexivity.
  - rewrite (IH false Hr); [ reflexivity | discriminate ].
Qed.

(** C9, as the claim states it, fails: a text of one space is not empty
    and is not parsed, yet it yields no entry at all. *)
Lemma blank_text_yields_no_entry :
  is_empty " " = false
  /\ @json_loads Scenario.runtime " " = None
  /\ @_ensure_list Scenario.runtime (JStr " ") = [].
Proof.
  repeat split.
Qed.

(** C9, amended.  A native sequence yields the text of each of its items
    but [None] and the empty string.  A string is trimmed first, and a
    blank string yields no entry.  A trimmed string that decodes to a JSON
    array yields the text of each decoded item but [null] and the empty
    string.  A trimmed string that does not decode is cut at the runs of
    commas and newlines and yields its non-blank pieces, trimmed, one
    entry a piece; when it has no such piece it yields the trimmed string
    as the only entry, and so does a string that holds no comma and no
    newline. *)
Theorem ensure_list_cases :
  forall (R : Runtime),
    (forall items,
        _ensure_list (JList items)
        = map py_str (filter (fun item => negb (none_or_empty item)) items))
    /\ (forall s, strip s = EmptyString -> _ensure_list (JStr s) = [])
    /\ (forall s items,
           strip s <> EmptyString ->
           json_loads (strip s) = Some (JList items) ->
           _ensure_list (JStr s)
           = map py_str (filter (fun item => negb (none_or_empty item)) items))
    /\ (forall s pieces,
           strip s <> EmptyString ->
           json_loads (strip s) = None ->
           pieces = filter (fun part => negb (is_empty (strip part)))
                           (split_runs is_list_separator (strip s)) ->
           (pieces <> [] ->
            _ensure_list (JStr s) = map strip pieces
            /\ List.length (_ensure_list (JStr s)) = List.length pieces)
           /\ (pieces = [] -> _ensure_list (JStr s) = [strip s])
           /\ (forallb_str (fun c => negb (is_list_separator c)) (strip s) = true ->
               _ensure_list (JStr s) = [strip s])).
Proof.
  intro R. split; [ reflexivity | split; [ | split ] ].
  - intros s H. simpl. rewrite H. reflexivity.
  - intros s items H L. simpl.
    apply is_empty_false in H. rewrite H, L. reflexivity.
  - intros s pieces H L Hpieces.
    assert (E : _ensure_list (JStr s)
                = match map strip pieces with
                  | [] => [strip s]
                  | _ :: _ => map strip pieces
                  end).
    { rewrite Hpieces. simpl. apply is_empty_false in H. rewrite H, L.
      reflexivity. }
    split; [ | split ].
    + intro Hp. rewrite E.
      destruct pieces as [| p ps]; [ congruence | ].
      simpl. split; [ reflexivity | ].
      rewrite length_map. reflexivity.
    + intro Hp. rewrite E, Hp. reflexivity.
    + intro Hs. rewrite E, Hpieces. unfold split_runs.
      rewrite (split_runs_one_piece _ _ _ Hs H). simpl.
      rewrite strip_idempotent.
      apply is_empty_false in H. rewrite H. simpl.
      rewrite strip_idempotent. reflexivity.
Qed.

(** A comma-delimited text, and a text of separators only. *)
Lemma ensure_list_cases_witness :
  @_ensure_list Scenario.runtime (JStr " late, storm ,,backlog ")
  = ["late"; "storm"; "backlog"]
  /\ @_ensure_list Scenario.runtime (JStr " , ") = [","].
Proof.
  split.
  - apply (proj1 (proj2 (proj2 (proj2 (ensure_list_cases Scenario.runtime)))
                    " late, storm ,,backlog " ["late"; " storm "; "backlog"]
                    ltac:(discriminate) eq_refl eq_refl)).
    discriminate.
  - apply (proj1 (proj2 (proj2 (proj2 (proj2 (ensure_list_cases Scenario.runtime)))
                    " , " [] ltac:(discriminate) eq_refl eq_refl))).
    reflexivity.
Defined.

(** ** Further properties of path resolution and of the snippet *)

(** Path resolution is total on the paths whose digit tokens are made of
    decimal digits, at most as many as [int] reads (4300): it returns the
    value reached, or [None] at the first token that cannot be followed.
    A token against a mapping reads the key, a missing key reading as
    [None]; such a token of decimal digits within bounds against a
    sequence reads the element; a token out of bounds, a token that is
    not made of digits against a sequence, and any token against a scalar
    yield [None].  A token of more decimal digits than [int] reads,
    against a sequence, raises [ValueError]. *)
Theorem resolve_json_path_total_on_decimal_tokens :
  forall (payload : json) (path : string),
    decimal_path path ->
    (exists v, _resolve_json_path payload path = Ret v)
    /\ (forall entries token rest,
           resolve_tokens (JDict entries) (token :: rest)
           = resolve_tokens (dict_get entries token) rest)
    /\ (forall items token rest,
           forallb_str isdecimal_char token = true ->
           token <> EmptyString ->
           (Z.of_nat (String.length token) <= int_max_str_digits)%Z ->
           resolve_tokens (JList items) (token :: rest)
           = if (decimal_value 0 token <? Z.of_nat (List.length items))%Z
             then resolve_tokens
                    (nth (Z.to_nat (decimal_value 0 token)) items JNull) rest
             else Ret JNull)
    /\ (forall items token rest,
           forallb_str isdecimal_char token = true ->
           (int_max_str_digits < Z.of_nat (String.length token))%Z ->
           resolve_tokens (JList items) (token :: rest) = Raise ValueError)
    /\ (forall items token rest,
           isdigit token = false ->
           resolve_tokens (JList items) (token :: rest) = Ret JNull)
    /\ (forall current token rest,
           (forall items, current <> JList items) ->
           (forall entries, current <> JDict entries) ->
           resolve_tokens current (token :: rest) = Ret JNull).
Proof.
  intros payload path H.
  assert (nonneg : forall s acc, (0 <= acc)%Z -> (0 <= decimal_value acc s)%Z).
  { induction s as [| c r IH]; intros acc Hacc; cbn [decimal_value];
      [ exact Hacc | ].
    apply IH. pose proof (N2Z.is_nonneg (code c - 48)). lia. }
  assert (digits : forall token,
             forallb_str isdecimal_char token = true ->
             token <> EmptyString -> isdigit token = true).
  { intros token Hd Hne.
    unfold isdigit. apply is_empty_false in Hne. rewrite Hne. simpl.
    clear - Hd. induction token as [| c r IH]; [ reflexivity | ].
    simpl in *. apply andb_true_iff in Hd. destruct Hd as [Hc Hr].
    rewrite (IH Hr), andb_true_r. unfold isdigit_char, isdecimal_char in *.
    rewrite Hc. reflexivity. }
  split; [ | split; [ | split; [ | split; [ | split ] ] ] ].
  - unfold _resolve_json_path. unfold decimal_path in H. revert payload H.
    induction (path_tokens path) as [| token rest IH]; intros current H.
    + exists current. reflexivity.
    + assert (Hrest : forall t, In t rest -> isdigit t = true ->
                                forallb_str isdecimal_char t = true
                                /\ (Z.of_nat (String.length t)
                                    <= int_max_str_digits)%Z).
      { intros t Hin. apply H. right. exact Hin. }
      simpl. destruct current; try (exists JNull; reflexivity).
      * destruct (isdigit token) eqn:D; [ | exists JNull; reflexivity ].
        destruct (H token (or_introl eq_refl) D) as [Hd Hl].
        unfold int_of_digits. rewrite Hd.
        apply Z.leb_le in Hl. rewrite Hl.
        destruct (_ && _); [ apply IH; exact Hrest | exists JNull; reflexivity ].
      * apply IH. exact Hrest.
  - reflexivity.
  - intros items token rest Hd Hne Hl. simpl.
    rewrite (digits token Hd Hne). unfold int_of_digits. rewrite Hd.
    apply Z.leb_le in Hl. rewrite Hl.
    assert (P : (0 <=? decimal_value 0 token)%Z = true).
    { apply Z.leb_le. apply nonneg. lia. }
    rewrite P. reflexivity.
  - intros items token rest Hd Hl. simpl.
    assert (Hne : token <> EmptyString).
    { intros ->. simpl in Hl. unfold int_max_str_digits in Hl. lia. }
    rewrite (digits token Hd Hne). unfold int_of_digits. rewrite Hd.
    apply Z.leb_gt in Hl. rewrite Hl. reflexivity.
  - intros items token rest D. simpl. rewrite D. reflexivity.
  - intros current token rest Hl Hd. simpl.
    destruct current; try reflexivity.
    + exfalso. exact (Hl _ eq_refl).
    + exfalso. exact (Hd _ eq_refl).
Qed.

(** The path [orders[1].status] in a document with two orders. *)
Lemma resolve_json_path_total_on_decimal_tokens_witness :
  exists v,
    _resolve_json_path
      (JDict [("orders", JList [JDict [("status", JStr "ok")];
                                JDict [("status", JStr "late")]])])
      "orders[1].status" = Ret v.
Proof.
  apply (proj1 (resolve_json_path_total_on_decimal_tokens
                  (JDict [("orders", JList [JDict [("status", JStr "ok")];
                                            JDict [("status", JStr "late")]])])
                  "orders[1].status"
                  ltac:(intros token [<- | [<- | [<- | []]]] D;
                        [ discriminate D
                        | split; [ reflexivity | discriminate ]
                        | discriminate D ]))).
Defined.

Lemma take_length_le (n : nat) (s : string) : String.length (take n s) <= n.
Proof.
  revert s. induction n as [| n IH]; intros s; [ simpl; lia | ].
  destruct s as [| c r]; simpl; [ lia | ].
  specialize (IH r). lia.
Qed.

Lemma rstrip_length_le (s : string) : String.length (rstrip s) <= String.length s.
Proof.
  induction s as [| c r IH]; simpl; [ lia | ].
  destruct (isspace c && is_empty (rstrip r)); simpl; lia.
Qed.

(** A context snippet is never empty and, for a budget that is not
    negative, never longer than the budget. *)
Theorem context_snippet_within_budget :
  forall (text : option string) (m : PatternMatch.t) (size : Z) (snippet : string),
    (0 <= size)%Z ->
    _context_snippet text m size = Some snippet ->
    snippet <> EmptyString
    /\ (Z.of_nat (String.length snippet) <= size)%Z.
Proof.
  intros text m size snippet Hsize. unfold _context_snippet.
  destruct text as [t |]; [ | discriminate ].
  destruct (is_empty t); [ discriminate | ].
  set (whole := _normalize_whitespace _).
  destruct (Z.of_nat (String.length whole) >? size)%Z eqn:E.
  - destruct (is_empty (rstrip (slice_to whole size))) eqn:F; [ discriminate | ].
    intro H. injection H as <-. split; [ apply is_empty_false; exact F | ].
    unfold slice_to. apply Z.leb_le in Hsize. rewrite Hsize.
    apply Z.leb_le in Hsize.
    pose proof (rstrip_length_le (take (Z.to_nat size) whole)).
    pose proof (take_length_le (Z.to_nat size) whole).
    lia.
  - destruct (is_empty whole) eqn:F; [ discriminate | ].
    intro H. injection H as <-. split; [ apply is_empty_false; exact F | ].
    rewrite Z.gtb_ltb in E. apply Z.ltb_ge in E. exact E.
Qed.

(** The snippet around [delayed] in the status line, within the default
    budget of 420 characters. *)
Lemma context_snippet_within_budget_witness :
  (Z.of_nat (String.length "Shipment delayed") <= 420)%Z.
Proof.
  exact (proj2 (context_snippet_within_budget
                  (Some "Shipment delayed")
                  (PatternMatch.Build "delayed" "delayed" 9 16 "status")
                  420 "Shipment delayed" ltac:(discriminate) eq_refl)).
Defined.

(** ** Whitespace normalisation *)

Lemma tidy_loose (s : string) : tidy s = true -> loose s = true.
Proof.
  induction s as [| c r IH]; [ reflexivity | ].
  simpl. intro H. apply andb_true_iff in H. destruct H as [Hc Hr].
  rewrite (IH Hr), andb_true_r.
  destruct (isspace c); [ | reflexivity ].
  apply andb_true_iff in Hc. destruct Hc as [He Hn]. rewrite He. simpl.
  destruct r; [ discriminate | exact Hn ].
Qed.

Lemma collapse_loose (s : string) (in_run : bool) :
  loose (collapse_spaces_from in_run s) = true
  /\ (in_run = true -> starts_clean (collapse_spaces_from in_run s) = true).
Proof.
  revert in_run. induction s as [| c r IH]; intro in_run; simpl.
  - split; reflexivity.
  - destruct (isspace c) eqn:E.
    + destruct in_run; [ exact (IH true) | ].
      destruct (IH true) as [Hl Hs]. split; [ | discriminate ].
      cbn [loose]. change (isspace " "%char) with true. cbn.
      unfold starts_clean in Hs. rewrite (Hs eq_refl), Hl. reflexivity.
    + destruct (IH false) as [Hl _]. split.
      * cbn [loose]. rewrite E, Hl. reflexivity.
      * intros _. simpl. rewrite E. reflexivity.
Qed.

Lemma lstrip_loose (s : string) : loose s = true -> loose (lstrip s) = true.
Proof.
  induction s as [| c r IH]; [ reflexivity | ].
  intro H. simpl. destruct (isspace c); [ | exact H ].
  apply IH. simpl in H. apply andb_true_iff in H. exact (proj2 H).
Qed.

Lemma lstrip_starts_clean (s : string) : starts_clean (lstrip s) = true.
Proof.
  induction s as [| c r IH]; [ reflexivity | ].
  simpl. destruct (isspace c) eqn:E; [ exact IH | ].
  simpl. rewrite E. reflexivity.
Qed.

Lemma rstrip_head (s : string) (d : ascii) (x : string) :
  rstrip s = String d x -> exists y, s = String d y.
Proof.
  destruct s as [| c r]; simpl; [ discriminate | ].
  destruct (isspace c && is_empty (rstrip r)); [ discriminate | ].
  intro H. injection H as -> _. exists r. reflexivity.
Qed.

Lemma rstrip_starts_clean (s : string) :
  starts_clean s = true -> starts_clean (rstrip s) = true.
Proof.
  intro H. destruct (rstrip s) as [| d x] eqn:E; [ reflexivity | ].
  destruct (rstrip_head s d x E) as [y ->]. exact H.
Qed.

Lemma rstrip_tidy (s : string) : loose s = true -> tidy (rstrip s) = true.
Proof.
  induction s as [| c r IH]; [ reflexivity | ].
  intro H. simpl in H. apply andb_true_iff in H. destruct H as [Hc Hr].
  simpl. destruct (isspace c && is_empty (rstrip r)) eqn:E; [ reflexivity | ].
  cbn [tidy]. rewrite (IH Hr), andb_true_r.
  destruct (isspace c); [ | reflexivity ].
  apply andb_true_iff in Hc. destruct Hc as [He Hn]. rewrite He.
  simpl in E. destruct (rstrip r) as [| d x] eqn:Er; [ discriminate | ].
  destruct (rstrip_head r d x Er) as [y ->]. exact Hn.
Qed.

Lemma rstrip_tidy_id (s : string) : tidy s = true -> rstrip s = s.
Proof.
  induction s as [| c r IH]; [ reflexivity | ].
  intro H. simpl in H. apply andb_true_iff in H. destruct H as [Hc Hr].
  simpl. rewrite (IH Hr).
  destruct (isspace c); [ | reflexivity ].
  apply andb_true_iff in Hc. destruct Hc as [_ Hn].
  destruct r; [ discriminate | reflexivity ].
Qed.

Lemma lstrip_clean_id (s : string) : starts_clean s = true -> lstrip s = s.
Proof.
  destruct s as [| c r]; [ reflexivity | ].
  simpl. intro H. apply negb_true_iff in H. rewrite H. reflexivity.
Qed.

Lemma space_is_plain (c : ascii) : Ascii.eqb c " " = true -> c = " "%char.
Proof.
  apply Ascii.eqb_eq.
Qed.

Lemma collapse_id (s : string) (in_run : bool) :
  loose s = true ->
  (in_run = true -> starts_clean s = true) ->
  collapse_spaces_from in_run s = s.
Proof.
  revert in_run. induction s as [| c r IH]; intros in_run H Hs;
    [ reflexivity | ].
  simpl in H. apply andb_true_iff in H. destruct H as [Hc Hr].
  simpl. destruct (isspace c) eqn:E.
  - apply andb_true_iff in Hc. destruct Hc as [He Hn].
    apply space_is_plain in He. subst c.
    destruct in_run.
    + specialize (Hs eq_refl). cbn in Hs. discriminate Hs.
    + rewrite (IH true Hr); [ reflexivity | ].
      intros _. destruct r; [ reflexivity | exact Hn ].
  - rewrite (IH false Hr); [ reflexivity | discriminate ].
Qed.

Lemma normalize_normal (text : string) : normal (_normalize_whitespace text).
Proof.
  unfold normal, _normalize_whitespace, strip, collapse_spaces. split.
  - apply rstrip_starts_clean. apply lstrip_starts_clean.
  - apply rstrip_tidy. apply lstrip_loose. apply collapse_loose.
Qed.

Lemma normal_fixed (s : string) : normal s -> _normalize_whitespace s = s.
Proof.
  intros [Hs Ht]. unfold _normalize_whitespace, strip, collapse_spaces.
  rewrite (collapse_id s false (tidy_loose s Ht)); [ | discriminate ].
  rewrite (lstrip_clean_id s Hs). apply rstrip_tidy_id. exact Ht.
Qed.

(** The result of [_normalize_whitespace] is in normal form: it does not
    start or end with whitespace, and every whitespace character in it is
    one plain space between two other characters.  Normalising is
    idempotent, and the texts it leaves unchanged are exactly the texts
    in normal form. *)
Theorem normalize_whitespace_normal_form :
  forall text : string,
    normal (_normalize_whitespace text)
    /\ _normalize_whitespace (_normalize_whitespace text)
       = _normalize_whitespace text
    /\ (normal text <-> _normalize_whitespace text = text).
Proof.
  intro text. split; [ apply normalize_normal | split ].
  - apply normal_fixed. apply normalize_normal.
  - split; [ apply normal_fixed | ].
    intro H. rewrite <- H. apply normalize_normal.
Qed.

(** ** The snippet is in normal form *)

Lemma take_loose (n : nat) (s : string) : loose s = true -> loose (take n s) = true.
Proof.
  revert s. induction n as [| n IH]; intros s H; [ reflexivity | ].
  destruct s as [| c r]; [ reflexivity | ].
  simpl in H. apply andb_true_iff in H. destruct H as [Hc Hr].
  cbn [take loose]. rewrite (IH r Hr), andb_true_r.
  destruct (isspace c); [ | reflexivity ].
  apply andb_true_iff in Hc. destruct Hc as [He Hn]. rewrite He. simpl.
  destruct n, r; try reflexivity. exact Hn.
Qed.

Lemma take_starts_clean (n : nat) (s : string) :
  starts_clean s = true -> starts_clean (take n s) = true.
Proof.
  destruct n, s; try reflexivity. intro H. exact H.
Qed.

(** A context snippet is in normal form, whatever the budget: cutting the
    normalised text and trimming its end keeps the words one space
    apart. *)
Theorem context_snippet_normal_form :
  forall (text : option string) (m : PatternMatch.t) (size : Z) (snippet : string),
    _context_snippet text m size = Some snippet ->
    normal snippet /\ _normalize_whitespace snippet = snippet.
Proof.
  intros text m size snippet H.
  assert (N : normal snippet).
  { unfold _context_snippet in H.
    destruct text as [t |]; [ | discriminate ].
    destruct (is_empty t); [ discriminate | ].
    set (whole := _normalize_whitespace _) in H.
    destruct (normalize_normal
                (slice t (Z.max (PatternMatch.start m - Z.max (size / 2) 80) 0)
                   (Z.min (PatternMatch.end_ m + Z.max (size / 2) 80)
                      (Z.of_nat (String.length t))))) as [Hs Ht].
    fold whole in Hs, Ht.
    destruct (Z.of_nat (String.length whole) >? size)%Z.
    - destruct (is_empty (rstrip (slice_to whole size))); [ discriminate | ].
      injection H as <-. unfold slice_to.
      destruct (0 <=? size)%Z; split;
        try (apply rstrip_starts_clean; apply take_starts_clean; exact Hs);
        apply rstrip_tidy; apply take_loose; apply tidy_loose; exact Ht.
    - destruct (is_empty whole); [ discriminate | ].
      injection H as <-. split; assumption. }
  split; [ exact N | apply normal_fixed; exact N ].
Qed.

(** The snippet cut from a status line with a stray double space. *)
Lemma context_snippet_normal_form_witness :
  normal "Shipment delayed"
  /\ _normalize_whitespace "Shipment delayed" = "Shipment delayed".
Proof.
  exact (context_snippet_normal_form
           (Some " Shipment   delayed ")
           (PatternMatch.Build "delayed" "delayed" 13 20 "status")
           420 "Shipment delayed" eq_refl).
Defined.

(** ** What the extraction hands on *)

Section Extraction.

Context {R : Runtime}.

Lemma extract_from_json_normal (payload : json) (paths : list string) (t : string) :
  _extract_from_json payload paths = Ret (Some t) ->
  t <> EmptyString /\ normal t.
Proof.
  induction paths as [| path rest IH]; simpl; [ discriminate | ].
  destruct (_resolve_json_path payload path) as [v | e]; [ | discriminate ].
  destruct v; try exact IH;
    match goal with
    | |- (if is_empty ?text then _ else _) = _ -> _ =>
        destruct (is_empty text) eqn:E; [ exact IH | ];
        intro H; injection H as <-;
        split; [ apply is_empty_false; exact E | apply normalize_normal ]
    end.
Qed.

Lemma extract_from_soup_normal (sp : soup) (selectors : list string) (t : string) :
  _extract_from_soup sp selectors = Ret (Some t) ->
  t <> EmptyString /\ normal t.
Proof.
  induction selectors as [| selector rest IH]; simpl; [ discriminate | ].
  destruct (soup_select_text sp selector) as [[element |] | e];
    [ | exact IH | discriminate ].
  destruct (is_empty (_normalize_whitespace element)) eqn:E; [ exact IH | ].
  intro H. injection H as <-.
  split; [ apply is_empty_false; exact E | apply normalize_normal ].
Qed.

End Extraction.

(** The four parts of the statement below, from what is known of the
    status, estimate and promised extraction. *)
Ltac candidate_parts found status estimated promised :=
  split; [ intros t ->; exact (found _ _ _ status)
         | split; [ intros t ->; exact (found _ _ _ estimated)
                  | split; [ apply normalize_normal | promised ] ] ].

(** Every candidate the extraction reads from a document is a text that
    is not empty and is in normal form, and so is the full-text body
    (which may be empty); the promised candidate is either such a text or
    the promised date the source configures. *)
Theorem extracted_candidates_normal_form :
  forall (R : Runtime) (content_type body : string) (source : SourceConfig.t)
         (x : Candidates),
    extract_candidates content_type body source = Ret x ->
    (forall t, status_text x = Some t -> t <> EmptyString /\ normal t)
    /\ (forall t, estimated_raw x = Some t -> t <> EmptyString /\ normal t)
    /\ normal (page_text x)
    /\ (forall t, promised_raw x = Some t ->
                  SourceConfig.promised_delivery_date source = Some t
                  \/ (t <> EmptyString /\ normal t)).
Proof.
  intros R content_type body source x. unfold extract_candidates.
  destruct (is_json_mode (lower content_type) source).
  - unfold json_candidates, loads.
    destruct (json_loads_raises body); [ discriminate | ].
    destruct (json_loads body) as [parsed |].
    + destruct (_extract_from_json parsed (SourceConfig.status_paths source))
        as [status | e] eqn:Es; [ | discriminate ].
      destruct (_extract_from_json parsed (SourceConfig.eta_paths source))
        as [estimated | e] eqn:Ee; [ | discriminate ].
      destruct (truthy (SourceConfig.promised_delivery_date source)).
      * intro H. injection H as <-. simpl.
        candidate_parts (extract_from_json_normal) Es Ee
                        ltac:(intros t Ht; left; exact Ht).
      * destruct (_extract_from_json parsed (SourceConfig.promised_paths source))
          as [promised | e] eqn:Ep; [ | discriminate ].
        intro H. injection H as <-. simpl.
        candidate_parts (extract_from_json_normal) Es Ee
                        ltac:(intros t ->; right;
                              exact (extract_from_json_normal _ _ _ Ep)).
    + intro H. injection H as <-. simpl.
      split; [ discriminate | split; [ discriminate | split ] ].
      * apply normalize_normal.
      * intros t Ht. left. exact Ht.
  - unfold html_candidates.
    destruct (_extract_from_soup (soup_parse body) (SourceConfig.status_selectors source))
      as [status | e] eqn:Es; [ | discriminate ].
    destruct (_extract_from_soup (soup_parse body) (SourceConfig.eta_selectors source))
      as [estimated | e] eqn:Ee; [ | discriminate ].
    destruct (truthy (SourceConfig.promised_delivery_date source)).
    + intro H. injection H as <-. simpl.
      candidate_parts (extract_from_soup_normal) Es Ee
                      ltac:(intros t Ht; left; exact Ht).
    + destruct (_extract_from_soup (soup_parse body)
                  (SourceConfig.promised_selectors source))
        as [promised | e] eqn:Ep; [ | discriminate ].
      intro H. injection H as <-. simpl.
      candidate_parts (extract_from_soup_normal) Es Ee
                      ltac:(intros t ->; right;
                            exact (extract_from_soup_normal _ _ _ Ep)).
Qed.

(** The candidates of the alert document. *)
Lemma extracted_candidates_normal_form_witness :
  normal (page_text Scenario.alert_candidates)
  /\ normal "Shipment delayed".
Proof.
  assert (Hx : @extract_candidates Scenario.runtime "application/json"
                 Scenario.alert_body Scenario.alert_source
               = Ret Scenario.alert_candidates)
    by (vm_compute; reflexivity).
  pose proof (extracted_candidates_normal_form Scenario.runtime
                "application/json" Scenario.alert_body Scenario.alert_source
                Scenario.alert_candidates Hx) as [Hs [_ [Hp _]]].
  split; [ exact Hp | exact (proj2 (Hs "Shipment delayed" eq_refl)) ].
Defined.

(** The promised date a source configures is the promised candidate of
    every document read for it, and the selectors and paths given for
    the promised date are then not consulted: replacing them changes
    nothing, not even whether the extraction raises. *)
Theorem configured_promised_date_wins :
  forall (R : Runtime) (content_type body : string) (source : SourceConfig.t)
         (date : string),
    SourceConfig.promised_delivery_date source = Some date ->
    date <> EmptyString ->
    (forall x, extract_candidates content_type body source = Ret x ->
               promised_raw x = Some date)
    /\ (forall selectors paths,
           extract_candidates content_type body
             (with_promised_lookups source selectors paths)
           = extract_candidates content_type body source).
Proof.
  intros R content_type body source date Hd Hne.
  assert (T : truthy (Some date) = true).
  { simpl. apply negb_true_iff. apply is_empty_false. exact Hne. }
  split.
  - intros x. unfold extract_candidates, json_candidates, html_candidates.
    cbv zeta. rewrite Hd, T.
    destruct (is_json_mode (lower content_type) source).
    + unfold loads. destruct (json_loads_raises body); [ discriminate | ].
      destruct (json_loads body) as [parsed |].
      * destruct (_extract_from_json parsed _) as [status | e]; [ | discriminate ].
        destruct (_extract_from_json parsed _) as [estimated | e]; [ | discriminate ].
        intro H. injection H as <-. reflexivity.
      * intro H. injection H as <-. reflexivity.
    + destruct (_extract_from_soup _ _) as [status | e]; [ | discriminate ].
      destruct (_extract_from_soup _ _) as [estimated | e]; [ | discriminate ].
      intro H. injection H as <-. reflexivity.
  - intros selectors paths. destruct source. simpl in Hd. subst.
    apply is_empty_false in Hne.
    unfold extract_candidates, json_candidates, html_candidates, is_json_mode.
    simpl. rewrite Hne. reflexivity.
Qed.

(** The weather source configures its promised date. *)
Lemma configured_promised_date_wins_witness :
  @extract_candidates Scenario.runtime "application/json" Scenario.weather_body
    (with_promised_lookups Scenario.weather_source ["("] ["eta"])
  = @extract_candidates Scenario.runtime "application/json" Scenario.weather_body
      Scenario.weather_source.
Proof.
  exact (proj2 (configured_promised_date_wins Scenario.runtime
                  "application/json" Scenario.weather_body
                  Scenario.weather_source "2024-02-08T00:00:00Z" eq_refl
                  ltac:(discriminate))
               ["("] ["eta"]).
Defined.

(** ** The two matchers *)

Section Matchers.

Context {R : Runtime}.

Lemma find_in_some_text (t : string) (patterns : list string) (origin : string)
      (m : PatternMatch.t) :
  find_in t patterns origin = Some m ->
  In (PatternMatch.pattern m) patterns
  /\ found_in (PatternMatch.pattern m) t = true
  /\ PatternMatch.text m
     = slice t (PatternMatch.start m) (PatternMatch.end_ m).
Proof.
  induction patterns as [| pattern rest IH]; simpl; [ discriminate | ].
  destruct (re_search (compile pattern) t) as [[s e] |] eqn:E.
  - intro H. injection H as <-. simpl. split; [ left; reflexivity | split ].
    + unfold found_in. rewrite E. reflexivity.
    + reflexivity.
  - intro H. destruct (IH H) as [Hin Hrest].
    split; [ right; exact Hin | exact Hrest ].
Qed.

Lemma find_pattern_some
      (candidate : option string) (patterns : list string) (origin : string)
      (m : PatternMatch.t) :
  _find_pattern candidate patterns origin = Some m ->
  exists t,
    candidate = Some t
    /\ t <> EmptyString
    /\ In (PatternMatch.pattern m) patterns
    /\ found_in (PatternMatch.pattern m) t = true
    /\ PatternMatch.origin m = origin
    /\ PatternMatch.text m
       = slice t (PatternMatch.start m) (PatternMatch.end_ m).
Proof.
  unfold _find_pattern.
  destruct candidate as [t |]; [ | discriminate ].
  destruct (is_empty t) eqn:E; [ discriminate | ].
  intro H. exists t. split; [ reflexivity | ].
  split; [ apply is_empty_false; exact E | ].
  destruct (find_in_some_text t patterns origin m H) as [Hin [Hf Ht]].
  destruct (find_in_some t patterns origin m H) as [Ho _].
  repeat split; assumption.
Qed.

End Matchers.

(** [_matches_pattern] and [_find_pattern], written as two loops, agree:
    the first answers true exactly when the second finds a match.  A
    match that is found is for a text that is present and not empty, by
    one of the patterns, carries the origin asked for, and its text is
    the part of the candidate between its start and its end. *)
Theorem find_pattern_agrees_with_matches_pattern :
  forall (R : Runtime) (candidate : option string) (patterns : list string)
         (origin : string),
    (_matches_pattern candidate patterns = true
     <-> exists m, _find_pattern candidate patterns origin = Some m)
    /\ (forall m,
           _find_pattern candidate patterns origin = Some m ->
           exists t,
             candidate = Some t
             /\ t <> EmptyString
             /\ In (PatternMatch.pattern m) patterns
             /\ found_in (PatternMatch.pattern m) t = true
             /\ PatternMatch.origin m = origin
             /\ PatternMatch.text m
                = slice t (PatternMatch.start m) (PatternMatch.end_ m)).
Proof.
  intros R candidate patterns origin. split.
  - split.
    + intro H.
      destruct (_find_pattern candidate patterns origin) as [m |] eqn:E;
        [ exists m; reflexivity | ].
      apply matches_pattern_spec in H. destruct H as [p [Hin Hm]].
      exfalso. exact (proj1 (find_pattern_none _ _ _) E p Hin Hm).
    + intros [m Hm]. destruct (_matches_pattern candidate patterns) eqn:E;
        [ reflexivity | exfalso ].
      assert (N : _find_pattern candidate patterns origin = None).
      { apply find_pattern_none. intros p Hin Hp.
        assert (T : _matches_pattern candidate patterns = true)
          by (apply matches_pattern_spec; exists p; split; assumption).
        congruence. }
      congruence.
  - intros m. apply find_pattern_some.
Qed.

(** The match of [delayed] in the status of the alert. *)
Lemma find_pattern_agrees_with_matches_pattern_witness :
  @_matches_pattern Scenario.runtime (Some "Shipment delayed")
    ["weather"; "delayed"] = true.
Proof.
  apply (proj1 (find_pattern_agrees_with_matches_pattern Scenario.runtime
                  (Some "Shipment delayed") ["weather"; "delayed"] "status")).
  eexists. vm_compute. reflexivity.
Defined.

(** ** The emitted record *)

Lemma filter_keys_NoDup (A : Type) (keep : string * A -> bool) (l : list (string * A)) :
  NoDup (map fst l) -> NoDup (map fst (filter keep l)).
Proof.
  induction l as [| entry rest IH]; simpl; intro H; [ constructor | ].
  inversion H as [| k ks Hnot Hrest]. subst.
  destruct (keep entry); [ | exact (IH Hrest) ].
  simpl. constructor; [ | exact (IH Hrest) ].
  intro Hin. apply Hnot. apply in_map_iff in Hin.
  destruct Hin as [e [He Hf]]. apply filter_In in Hf.
  apply in_map_iff. exists e. split; [ exact He | exact (proj1 Hf) ].
Qed.

Lemma filter_keys_incl (A : Type) (keep : string * A -> bool) (l : list (string * A))
      (key : string) :
  In key (map fst (filter keep l)) -> In key (map fst l).
Proof.
  intro Hin. apply in_map_iff in Hin. destruct Hin as [e [He Hf]].
  apply filter_In in Hf. apply in_map_iff. exists e.
  split; [ exact He | exact (proj1 Hf) ].
Qed.

Lemma record_keys_NoDup : NoDup record_keys.
Proof.
  unfold record_keys.
  repeat (constructor; [ simpl; intuition discriminate | ]).
  constructor.
Qed.

Lemma record_keys_but_metadata_NoDup : NoDup (removelast record_keys).
Proof.
  unfold record_keys. simpl.
  repeat (constructor; [ simpl; intuition discriminate | ]).
  constructor.
Qed.

(** What an evaluation that emits a record went through. *)
Lemma evaluation_emits
      (R : Runtime) (fetched : fetch_result) (source : SourceConfig.t)
      (settings : ActorSettings.t) (detected_at : string) (record : incident) :
  _evaluate_source fetched source settings detected_at = Ret (Some record) ->
  exists content_type body x m,
    fetched = Response content_type body
    /\ extract_candidates content_type body source = Ret x
    /\ ignored x source = false
    /\ select_delay_match x source = Some m
    /\ float_lt (delay_hours_of x m source settings)
                (effective_min_delay source settings) = false
    /\ record = build_incident x m source settings detected_at.
Proof.
  intro H.
  destruct fetched as [| | content_type body]; simpl in H; try discriminate.
  destruct (extract_candidates content_type body source) as [x | e] eqn:Ex;
    [ | discriminate ].
  injection H as H. unfold assess_candidates in H.
  destruct (ignored x source) eqn:Ei; [ discriminate | ].
  destruct (select_delay_match x source) as [m |] eqn:Em; [ | discriminate ].
  destruct (float_lt _ _) eqn:El; [ discriminate | ].
  injection H as <-.
  exists content_type, body, x, m. repeat split; assumption.
Qed.

(** A record is emitted only for a source that was fetched, whose
    candidates no ignore pattern matches, for which one of its delay
    patterns was found, and whose delay-hours are not below the threshold
    in force; the record then carries those hours, rounded, under
    [delayHours]. *)
Theorem emitted_incident_is_justified :
  forall (R : Runtime) (fetched : fetch_result) (source : SourceConfig.t)
         (settings : ActorSettings.t) (detected_at : string) (record : incident),
    _evaluate_source fetched source settings detected_at = Ret (Some record) ->
    exists content_type body x m,
      fetched = Response content_type body
      /\ extract_candidates content_type body source = Ret x
      /\ (forall p, In p (SourceConfig.ignore_patterns source) ->
                    ~ matches p (status_text x)
                    /\ ~ matches p (Some (page_text x)))
      /\ select_delay_match x source = Some m
      /\ In (PatternMatch.pattern m) (SourceConfig.delay_patterns source)
      /\ float_lt (delay_hours_of x m source settings)
                  (effective_min_delay source settings) = false
      /\ In ("delayHours", VFloat (round2 (delay_hours_of x m source settings)))
            record.
Proof.
  intros R fetched source settings detected_at record H.
  destruct (evaluation_emits R _ _ _ _ _ H)
    as [content_type [body [x [m [Hf [Hx [Hi [Hm [Hl Hr]]]]]]]]].
  exists content_type, body, x, m.
  split; [ exact Hf | split; [ exact Hx | split; [ | split; [ exact Hm | split; [ | split; [ exact Hl | ] ] ] ] ] ].
  - unfold ignored in Hi. apply orb_false_iff in Hi. destruct Hi as [Hs Hp].
    intros p Hin. split; intro Hmatch.
    + assert (T : _matches_pattern (status_text x)
                    (SourceConfig.ignore_patterns source) = true)
        by (apply matches_pattern_spec; exists p; split; assumption).
      congruence.
    + assert (T : _matches_pattern (Some (page_text x))
                    (SourceConfig.ignore_patterns source) = true)
        by (apply matches_pattern_spec; exists p; split; assumption).
      congruence.
  - unfold select_delay_match in Hm.
    destruct (_find_pattern (status_text x) _ "status") as [m' |] eqn:Es.
    + injection Hm as ->.
      destruct (find_pattern_some _ _ _ _ Es) as [t [_ [_ [Hin _]]]]. exact Hin.
    + destruct (find_pattern_some _ _ _ _ Hm) as [t [_ [_ [Hin _]]]]. exact Hin.
  - rewrite Hr. unfold build_incident, sparse. cbv zeta.
    apply filter_In. split; [ | reflexivity ].
    destruct (SourceConfig.metadata source); simpl; tauto.
Qed.

(** The record emitted for the weather source carries forty-eight
    hours. *)
Lemma emitted_incident_is_justified_witness :
  exists record content_type body x m,
    Response "application/json" Scenario.weather_body
    = Response content_type body
    /\ @extract_candidates Scenario.runtime content_type body
         Scenario.weather_source = Ret x
    /\ @select_delay_match Scenario.runtime x Scenario.weather_source = Some m
    /\ In ("delayHours",
           VFloat (@round2 Scenario.runtime
                     (@delay_hours_of Scenario.runtime x m
                        Scenario.weather_source Scenario.settings)))
          record.
Proof.
  destruct (@_evaluate_source Scenario.runtime
              (Response "application/json" Scenario.weather_body)
              Scenario.weather_source Scenario.settings Scenario.now)
    as [[record |] | e] eqn:E.
  - destruct (emitted_incident_is_justified Scenario.runtime _ _ _ _ _ E)
      as [content_type [body [x [m [Hf [Hx [_ [Hm [_ [_ Hin]]]]]]]]]].
    exists record, content_type, body, x, m.
    repeat split; assumption.
  - vm_compute in E. discriminate E.
  - vm_compute in E. discriminate E.
Defined.

(** The keys of an emitted record are pairwise distinct and are keys of
    the payload; the record holds [metadata] exactly when the source has
    a metadata bag that is not empty. *)
Theorem emitted_record_keys :
  forall (R : Runtime) (fetched : fetch_result) (source : SourceConfig.t)
         (settings : ActorSettings.t) (detected_at : string) (record : incident),
    _evaluate_source fetched source settings detected_at = Ret (Some record) ->
    NoDup (map fst record)
    /\ (forall key, In key (map fst record) -> In key record_keys)
    /\ (In "metadata" (map fst record) <-> SourceConfig.metadata source <> [])
    /\ (In ("metadata", VDict (SourceConfig.metadata source)) record
        <-> SourceConfig.metadata source <> []).
Proof.
  intros R fetched source settings detected_at record H.
  destruct (evaluation_emits R _ _ _ _ _ H)
    as [content_type [body [x [m [_ [_ [_ [_ [_ Hr]]]]]]]]].
  rewrite Hr. unfold build_incident, sparse. cbv zeta.
  destruct (SourceConfig.metadata source) as [| entry entries] eqn:Em.
  - split; [ | split; [ | split ] ].
    + apply filter_keys_NoDup. exact record_keys_but_metadata_NoDup.
    + intros key Hin. apply filter_keys_incl in Hin.
      simpl in Hin. unfold record_keys. simpl. tauto.
    + split; [ | congruence ].
      intro Hin. apply filter_keys_incl in Hin. simpl in Hin.
      exfalso. intuition discriminate.
    + split; [ | congruence ].
      intro Hin. apply filter_In in Hin. destruct Hin as [Hin _].
      simpl in Hin. exfalso. intuition discriminate.
  - split; [ | split; [ | split ] ].
    + apply filter_keys_NoDup. exact record_keys_NoDup.
    + intros key Hin. apply filter_keys_incl in Hin. exact Hin.
    + split; [ discriminate | ]. intros _.
      apply in_map_iff. exists ("metadata", VDict (entry :: entries)).
      split; [ reflexivity | ].
      apply filter_In. split; [ | reflexivity ].
      apply in_or_app. right. left. reflexivity.
    + split; [ discriminate | ]. intros _.
      apply filter_In. split; [ | reflexivity ].
      apply in_or_app. right. left. reflexivity.
Qed.

(** The record of the weather source has no metadata. *)
Lemma emitted_record_keys_witness :
  exists record,
    @_evaluate_source Scenario.runtime
      (Response "application/json" Scenario.weather_body)
      Scenario.weather_source Scenario.settings Scenario.now
    = Ret (Some record)
    /\ NoDup (map fst record).
Proof.
  destruct (@_evaluate_source Scenario.runtime
              (Response "application/json" Scenario.weather_body)
              Scenario.weather_source Scenario.settings Scenario.now)
    as [[record |] | e] eqn:E.
  - exists record. split; [ reflexivity | ].
    exact (proj1 (emitted_record_keys Scenario.runtime _ _ _ _ _ E)).
  - vm_compute in E. discriminate E.
  - vm_compute in E. discriminate E.
Defined.

(** ** The batch *)

Lemma collect_incidents_app (before after : list (outcome (option incident))) :
  collect_incidents (before ++ after)%list
  = (collect_incidents before ++ collect_incidents after)%list.
Proof.
  induction before as [| result rest IH]; [ reflexivity | ].
  simpl. destruct result as [[[| entry more] |] | e]; simpl; rewrite IH;
    reflexivity.
Qed.

Lemma collect_incidents_In
      (results : list (outcome (option incident))) (record : incident) :
  In record (collect_incidents results)
  <-> record <> [] /\ In (Ret (Some record)) results.
Proof.
  induction results as [| result rest IH]; simpl.
  - split; [ intros [] | intros [_ []] ].
  - destruct result as [[[| entry more] |] | e]; simpl; rewrite ?IH; split;
      try (intros [Hne Hin]; split; [ exact Hne | right; exact Hin ]);
      try (intros [Hne [Heq | Hin]];
           [ try discriminate Heq | split; assumption ]).
    + injection Heq as <-. congruence.
    + intros [<- | [Hne Hin]];
        [ split; [ discriminate | left; reflexivity ]
        | split; [ exact Hne | right; exact Hin ] ].
    + intros [Hne [Heq | Hin]];
        [ left; injection Heq as <-; reflexivity
        | right; split; assumption ].
Qed.

(** The results of a batch are collected one by one: what is collected
    from two runs of results put together is what is collected from each,
    in order.  A source that raised, one that yielded nothing, and one
    that yielded an empty record leave the records of the other sources as
    they are.  The records collected are the non-empty records the
    results hold. *)
Theorem collect_incidents_isolates_failures :
  forall (before after : list (outcome (option incident))),
    collect_incidents (before ++ after)%list
    = (collect_incidents before ++ collect_incidents after)%list
    /\ (forall e,
           collect_incidents (before ++ Raise e :: after)%list
           = collect_incidents (before ++ after)%list)
    /\ collect_incidents (before ++ Ret None :: after)%list
       = collect_incidents (before ++ after)%list
    /\ collect_incidents (before ++ Ret (Some []) :: after)%list
       = collect_incidents (before ++ after)%list
    /\ (forall record,
           In record (collect_incidents before)
           <-> record <> [] /\ In (Ret (Some record)) before).
Proof.
  intros before after.
  split; [ apply collect_incidents_app | ].
  split; [ intro e; rewrite !collect_incidents_app; reflexivity | ].
  split; [ rewrite !collect_incidents_app; reflexivity | ].
  split; [ rewrite !collect_incidents_app; reflexivity | ].
  intro record. apply collect_incidents_In.
Qed.

(** ** Configuration parsing *)

Lemma lower_char_idempotent (c : ascii) : lower_char (lower_char c) = lower_char c.
Proof.
  destruct c as [[] [] [] [] [] [] [] []]; reflexivity.
Qed.

Lemma lower_idempotent (s : string) : lower (lower s) = lower s.
Proof.
  induction s as [| c r IH]; [ reflexivity | ].
  unfold lower in *. simpl. rewrite lower_char_idempotent, IH. reflexivity.
Qed.

(** The matches on the result of a call that may raise, in a hypothesis. *)
Ltac outcome_cases H :=
  repeat match type of H with
         | context [match ?m with Ret _ => _ | Raise _ => _ end] =>
             let E := fresh "E" in
             destruct m eqn:E; try discriminate H
         end.

Lemma and_then_ret (A B : Type) (m : outcome A) (k : A -> outcome B) (b : B) :
  and_then m k = Ret b -> exists a, m = Ret a /\ k a = Ret b.
Proof.
  unfold and_then. destruct m as [a | e]; [ | discriminate ].
  intro H. exists a. split; [ reflexivity | exact H ].
Qed.

(** One step of a sequence of calls that returned. *)
Ltac returned_step H a E :=
  apply and_then_ret in H; destruct H as [a [E H]].

Section ConfigurationFacts.

Context {R : Runtime} {P : NumberParsing}.

Lemma clean_string_trimmed (v : json) : trimmed (_clean_string v).
Proof.
  intros t. unfold _clean_string.
  assert (G : (if is_empty (strip (py_str v)) then None else Some (strip (py_str v)))
              = Some t -> t <> EmptyString /\ strip t = t).
  { destruct (is_empty (strip (py_str v))) eqn:E; [ discriminate | ].
    intro H. injection H as <-.
    split; [ apply is_empty_false; exact E | apply strip_idempotent ]. }
  destruct v; try exact G. discriminate.
Qed.

Lemma clean_string_none (v : json) :
  _clean_string v = None
  <-> v = JNull \/ (v <> JNull /\ strip (py_str v) = EmptyString).
Proof.
  unfold _clean_string.
  assert (G : v <> JNull ->
              ((if is_empty (strip (py_str v)) then None
                else Some (strip (py_str v))) = None
               <-> v = JNull \/ (v <> JNull /\ strip (py_str v) = EmptyString))).
  { intro Hv. destruct (is_empty (strip (py_str v))) eqn:E.
    - apply is_empty_true in E. split; [ intros _; right; split; assumption | reflexivity ].
    - apply is_empty_false in E. split; [ discriminate | ].
      intros [-> | [_ H]]; congruence. }
  destruct v; try (apply G; discriminate).
  split; [ intros _; left; reflexivity | reflexivity ].
Qed.

Lemma patterns_nonempty (v : json) (fallback items : list string) :
  _patterns v fallback = Ret items -> fallback <> [] -> items <> [].
Proof.
  unfold _patterns. intros H Hf.
  apply and_then_ret in H. destruct H as [found [_ H]].
  injection H as <-. destruct found; [ exact Hf | discriminate ].
Qed.

(** With no text on which [json.loads] raises, the call returns the
    list. *)
Lemma ensure_list_call_returns (v : json) :
  (forall s, v = JStr s -> json_loads_raises (strip s) = None) ->
  ensure_list_call v = Ret (_ensure_list v).
Proof.
  intro H. destruct v as [| b | z | x | s | items | entries]; try reflexivity.
  unfold ensure_list_call.
  destruct (is_empty (strip s)); [ reflexivity | ].
  unfold loads. rewrite (H s eq_refl). reflexivity.
Qed.

(** What [from_dict] returns when it returns. *)
Lemma from_dict_returns
      (payload : json) (defaults : ActorSettings.t) (source : SourceConfig.t) :
  from_dict payload defaults = Ret source ->
  exists entries url order_id,
    payload = JDict entries
    /\ _clean_string (dict_get entries "url") = Some url
    /\ _clean_string (dict_get entries "orderId") = Some order_id
    /\ SourceConfig.url source = url
    /\ SourceConfig.order_id source = order_id
    /\ well_formed source
    /\ _patterns (dict_get entries "delayPatterns")
                 (ActorSettings.delay_patterns defaults)
       = Ret (SourceConfig.delay_patterns source)
    /\ _patterns (dict_get entries "ignorePatterns")
                 (ActorSettings.ignore_patterns defaults)
       = Ret (SourceConfig.ignore_patterns source).
Proof.
  unfold from_dict. destruct payload as [| | | | | | entries]; try discriminate.
  cbv zeta.
  destruct (_clean_string (dict_get entries "url")) as [url |] eqn:Eu;
    [ | discriminate ].
  destruct (_clean_string (dict_get entries "orderId")) as [order_id |] eqn:Eo;
    [ | discriminate ].
  intro H.
  returned_step H expected Ee.
  returned_step H status_selectors E1.
  returned_step H eta_selectors E2.
  returned_step H promised_selectors E3.
  returned_step H status_paths E4.
  returned_step H eta_paths E5.
  returned_step H promised_paths E6.
  returned_step H delay_patterns Ed.
  returned_step H ignore_patterns Ei.
  returned_step H headers Eh.
  returned_step H metadata Em.
  returned_step H minimum En.
  injection H as <-.
  exists entries, url, order_id. simpl.
  split; [ reflexivity | ].
  split; [ exact Eu | ].
  split; [ exact Eo | ].
  split; [ reflexivity | ].
  split; [ reflexivity | ].
  split; [ | split; [ exact Ed | exact Ei ] ].
  unfold well_formed. simpl.
  pose proof (clean_string_trimmed (dict_get entries "url")) as Tu.
  pose proof (clean_string_trimmed (dict_get entries "orderId")) as To.
  rewrite Eu in Tu. rewrite Eo in To.
  repeat (split; [ first [ exact Tu | exact To | apply clean_string_trimmed ] | ]).
  apply lower_idempotent.
Qed.

End ConfigurationFacts.

(** A source that [from_dict] builds has an address and an order id that
    are not empty and have no whitespace around them; each of its optional
    texts is absent or is such a text; its content mode is in lower case;
    its pattern lists are not empty when the engine's are not; and an
    incident id it declares is the identifier of its incidents, as
    written.  [from_dict] raises [ValueError] for an entry that is not an
    object, and for one whose address or order id is missing or blank. *)
Theorem from_dict_builds_well_formed_sources :
  forall (R : Runtime) (P : NumberParsing) (payload : json)
         (defaults : ActorSettings.t),
    (forall source,
        from_dict payload defaults = Ret source ->
        well_formed source
        /\ (ActorSettings.delay_patterns defaults <> [] ->
            SourceConfig.delay_patterns source <> [])
        /\ (ActorSettings.ignore_patterns defaults <> [] ->
            SourceConfig.ignore_patterns source <> [])
        /\ (forall id, SourceConfig.incident_id source = Some id ->
                       _build_incident_id source = id))
    /\ ((forall entries, payload <> JDict entries) ->
        from_dict payload defaults = Raise ValueError)
    /\ (forall entries field,
           payload = JDict entries ->
           field = "url" \/ field = "orderId" ->
           dict_get entries field = JNull
           \/ (exists s, dict_get entries field = JStr s /\ strip s = EmptyString) ->
           from_dict payload defaults = Raise ValueError).
Proof.
  intros R P payload defaults.
  split; [ | split ].
  - intros source H.
    destruct (from_dict_returns payload defaults source H)
      as [entries [url [order_id [_ [_ [_ [_ [_ [W [Hd Hi]]]]]]]]]].
    split; [ exact W | ].
    split; [ exact (patterns_nonempty _ _ _ Hd) | ].
    split; [ exact (patterns_nonempty _ _ _ Hi) | ].
    intros id Hid. unfold _build_incident_id. rewrite Hid.
    destruct W as [_ [_ [_ [_ [Wi _]]]]].
    destruct (Wi id Hid) as [Hne _]. apply is_empty_false in Hne.
    rewrite Hne. reflexivity.
  - intro H. destruct payload; try reflexivity.
    exfalso. exact (H _ eq_refl).
  - intros entries field -> Hfield Hblank.
    assert (N : _clean_string (dict_get entries field) = None).
    { apply clean_string_none.
      destruct Hblank as [-> | [s [-> Hs]]]; [ left; reflexivity | ].
      right. split; [ discriminate | exact Hs ]. }
    unfold from_dict. cbv zeta.
    destruct Hfield as [-> | ->].
    + rewrite N. reflexivity.
    + rewrite N. destruct (_clean_string (dict_get entries "url")); reflexivity.
Qed.

(** The source of the entry of a run is well formed. *)
Lemma from_dict_builds_well_formed_sources_witness :
  exists source,
    @from_dict Scenario.runtime ReferenceNumbers.parsing
      Run.alert_entry Scenario.settings = Ret source
    /\ SourceConfig.url source = "https://example.com/alert"
    /\ SourceConfig.content_mode source = "json"
    /\ well_formed source.
Proof.
  destruct (@from_dict Scenario.runtime ReferenceNumbers.parsing
              Run.alert_entry Scenario.settings) as [source | e] eqn:E.
  - exists source. split; [ reflexivity | ].
    split; [ vm_compute in E; injection E as <-; reflexivity | ].
    split; [ vm_compute in E; injection E as <-; reflexivity | ].
    exact (proj1 (proj1 (from_dict_builds_well_formed_sources
                           Scenario.runtime ReferenceNumbers.parsing
                           Run.alert_entry Scenario.settings) source E)).
  - vm_compute in E. discriminate E.
Defined.

(** ** The engine settings *)

Section SettingsFacts.

Context {R : Runtime} {P : NumberParsing}.

Lemma fallback_float_returns (v : json) (fallback x : pyfloat) :
  _fallback_float v fallback = Ret x ->
  (_to_float v = Ret (Some x)) \/ (_to_float v = Ret None /\ x = fallback).
Proof.
  unfold _fallback_float, and_then.
  destruct (_to_float v) as [[y |] | e'] eqn:E; try discriminate.
  - intro H. injection H as <-. left. reflexivity.
  - intro H. injection H as <-. right. split; reflexivity.
Qed.

Lemma clean_string_or_trimmed (v : json) (fallback : string) :
  trimmed (Some fallback) ->
  trimmed (Some match _clean_string v with
                | Some text => text
                | None => fallback
                end).
Proof.
  intro H. pose proof (clean_string_trimmed v) as T.
  destruct (_clean_string v) as [text |]; [ | exact H ].
  intros t Ht. injection Ht as <-. apply T. reflexivity.
Qed.

(** What [_parse_settings] returns when it returns. *)
Lemma parse_settings_returns
      (payload : list (string * json)) (settings : ActorSettings.t) :
  _parse_settings payload = Ret settings ->
  exists default_delay min_delay snapshot headers delay ignore timeout concurrency,
    _fallback_float (dict_get payload "minDelayHours") (Fin 24) = Ret min_delay
    /\ settings
       = ActorSettings.Build
           default_delay min_delay snapshot
           match _clean_string (dict_get payload "sourceLabel") with
           | Some label => label
           | None => DEFAULT_SOURCE_LABEL
           end
           headers
           (list_or delay DEFAULT_DELAY_PATTERNS)
           (list_or ignore DEFAULT_IGNORE_PATTERNS)
           timeout
           (Z.max 1 (Z.min concurrency 10))
           match _clean_string (dict_get payload "defaultCarrierStatusCode") with
           | Some status_code => status_code
           | None => DEFAULT_STATUS_CODE
           end.
Proof.
  unfold _parse_settings. cbv zeta. intro H.
  returned_step H default_delay E1.
  returned_step H min_delay E2.
  returned_step H snapshot E3.
  returned_step H headers E4.
  returned_step H delay E5.
  returned_step H ignore E6.
  returned_step H timeout E7.
  returned_step H concurrency E8.
  injection H as <-.
  exists default_delay, min_delay, snapshot, headers, delay, ignore, timeout,
         concurrency.
  split; [ exact E2 | reflexivity ].
Qed.

End SettingsFacts.

(** The settings [_parse_settings] returns allow between one and ten
    requests at a time, hold delay and ignore patterns, a source label and
    a carrier status code that are not empty, and hold under
    [minDelayHours] the number given, zero included.  An input that gives
    none of the settings yields the defaults. *)
Theorem parse_settings_validates :
  forall (R : Runtime) (P : NumberParsing) (payload : list (string * json)),
    (forall settings,
        _parse_settings payload = Ret settings ->
        (1 <= ActorSettings.concurrency settings <= 10)%Z
        /\ ActorSettings.delay_patterns settings <> []
        /\ ActorSettings.ignore_patterns settings <> []
        /\ trimmed (Some (ActorSettings.source_label settings))
        /\ trimmed (Some (ActorSettings.carrier_status_code settings))
        /\ (forall x,
               _to_float (dict_get payload "minDelayHours") = Ret (Some x) ->
               ActorSettings.min_delay_hours settings = x)
        /\ (_to_float (dict_get payload "minDelayHours") = Ret None ->
            ActorSettings.min_delay_hours settings = Fin 24))
    /\ ((forall key, In key setting_keys -> dict_get payload key = JNull) ->
        _parse_settings payload = Ret default_settings).
Proof.
  intros R P payload.
  split.
  - intros settings H.
    destruct (parse_settings_returns _ _ H)
      as [default_delay [min_delay [snapshot [headers [delay [ignore
            [timeout [concurrency [Hm ->]]]]]]]]].
    simpl.
    split; [ lia | ].
    split; [ destruct delay; discriminate | ].
    split; [ destruct ignore; discriminate | ].
    split; [ apply clean_string_or_trimmed; intros t Ht;
             injection Ht as <-; split; [ discriminate | reflexivity ] | ].
    split; [ apply clean_string_or_trimmed; intros t Ht;
             injection Ht as <-; split; [ discriminate | reflexivity ] | ].
    destruct (fallback_float_returns _ _ _ Hm) as [Hx | [Hn ->]].
    + split; [ intros x Hx'; congruence | congruence ].
    + split; [ intros x Hx'; congruence | reflexivity ].
  - intro H. unfold _parse_settings. cbv zeta.
    rewrite !H by (unfold setting_keys; simpl; tauto).
    reflexivity.
Qed.

(** The settings of the run allow ten requests at a time and hold a
    minimum of zero hours. *)
Lemma parse_settings_validates_witness :
  exists settings,
    @_parse_settings Scenario.runtime ReferenceNumbers.parsing Run.input
    = Ret settings
    /\ (1 <= ActorSettings.concurrency settings <= 10)%Z
    /\ ActorSettings.min_delay_hours settings = Fin 0.
Proof.
  destruct (@_parse_settings Scenario.runtime ReferenceNumbers.parsing Run.input)
    as [settings | e] eqn:E.
  - exists settings. split; [ reflexivity | ].
    destruct (proj1 (parse_settings_validates Scenario.runtime
                       ReferenceNumbers.parsing Run.input) settings E)
      as [Hc [_ [_ [_ [_ [Hm _]]]]]].
    split; [ exact Hc | ]. apply Hm. reflexivity.
  - vm_compute in E. discriminate E.
Defined.

(** ** The sources *)

Section SourcesFacts.

Context {R : Runtime} {P : NumberParsing}.

Lemma build_sources_returns
      (entries : list json) (settings : ActorSettings.t)
      (sources : list SourceConfig.t) :
  build_sources entries settings = Ret sources ->
  map Ret sources
  = filter returned (map (fun entry => from_dict entry settings) entries).
Proof.
  revert sources.
  induction entries as [| entry rest IH]; simpl; intros sources H.
  - injection H as <-. reflexivity.
  - destruct (from_dict entry settings) as [source | e] eqn:E; simpl.
    + unfold and_then in H.
      destruct (build_sources rest settings) as [others | e'];
        [ | discriminate ].
      injection H as <-. simpl. rewrite (IH others eq_refl). reflexivity.
    + destruct (String.eqb e ValueError); [ | discriminate ].
      exact (IH sources H).
Qed.

Lemma build_sources_from
      (entries : list json) (settings : ActorSettings.t)
      (sources : list SourceConfig.t) (source : SourceConfig.t) :
  build_sources entries settings = Ret sources ->
  In source sources ->
  exists entry, In entry entries /\ from_dict entry settings = Ret source.
Proof.
  intros H Hin. apply build_sources_returns in H.
  assert (Hr : In (Ret source) (map Ret sources)) by (apply in_map; exact Hin).
  rewrite H in Hr. apply filter_In in Hr. destruct Hr as [Hr _].
  apply in_map_iff in Hr. destruct Hr as [entry [He Hentry]].
  exists entry. split; assumption.
Qed.

Lemma build_sources_raises
      (entries : list json) (settings : ActorSettings.t) (e : string) :
  build_sources entries settings = Raise e ->
  e <> ValueError
  /\ exists entry, In entry entries /\ from_dict entry settings = Raise e.
Proof.
  induction entries as [| entry rest IH]; simpl; [ discriminate | ].
  destruct (from_dict entry settings) as [source | e'] eqn:E.
  - unfold and_then.
    destruct (build_sources rest settings) as [others | e''];
      [ discriminate | ].
    intro H. injection H as <-.
    destruct (IH eq_refl) as [He [x [Hin Hx]]].
    split; [ exact He | ]. exists x. split; [ right; exact Hin | exact Hx ].
  - destruct (String.eqb e' ValueError) eqn:V.
    + intro H. destruct (IH H) as [He [x [Hin Hx]]].
      split; [ exact He | ]. exists x. split; [ right; exact Hin | exact Hx ].
    + intro H. injection H as <-.
      split; [ apply String.eqb_neq; exact V | ].
      exists entry. split; [ left; reflexivity | exact E ].
Qed.

Lemma build_sources_skips
      (before after : list json) (bad : json) (settings : ActorSettings.t) :
  from_dict bad settings = Raise ValueError ->
  build_sources (before ++ bad :: after)%list settings
  = build_sources (before ++ after)%list settings.
Proof.
  intro H. induction before as [| entry rest IH]; simpl.
  - rewrite H. reflexivity.
  - rewrite IH. reflexivity.
Qed.

(** The entries, when [_coerce_sources_payload] yields none. *)
Lemma normalized_sources_none (payload : list (string * json)) :
  _coerce_sources_payload (dict_get payload "sources") = Ret []
  \/ _coerce_sources_payload (dict_get payload "sources") = Raise ValueError ->
  normalized_sources payload
  = Ret (if json_truthy (dict_get payload "url") then [legacy_source payload]
         else []).
Proof.
  intros [H | H]; unfold normalized_sources; rewrite H; reflexivity.
Qed.

Lemma parse_sources_raises
      (payload : list (string * json)) (settings : ActorSettings.t)
      (e : string) :
  _parse_sources payload settings = Raise e -> e <> ValueError.
Proof.
  unfold _parse_sources, normalized_sources, and_then.
  destruct (_coerce_sources_payload (dict_get payload "sources"))
    as [entries | e'].
  - intro H. exact (proj1 (build_sources_raises _ _ _ H)).
  - destruct (String.eqb e' ValueError) eqn:V.
    + intro H. exact (proj1 (build_sources_raises _ _ _ H)).
    + intro H. injection H as <-. apply String.eqb_neq. exact V.
Qed.

End SourcesFacts.

(** The loop of [_parse_sources] keeps, in the order of the entries, the
    source of each entry [from_dict] accepts, and each is well formed; an
    entry [from_dict] rejects with [ValueError] is skipped: the sources
    are those of the entries without it.  What the loop raises is never
    [ValueError]: it is what [from_dict] raised on one of the entries. *)
Theorem build_sources_keeps_valid_entries :
  forall (R : Runtime) (P : NumberParsing) (entries : list json)
         (settings : ActorSettings.t),
    (forall sources,
        build_sources entries settings = Ret sources ->
        map Ret sources
        = filter returned (map (fun entry => from_dict entry settings) entries)
        /\ (forall source, In source sources -> well_formed source))
    /\ (forall e,
           build_sources entries settings = Raise e ->
           e <> ValueError
           /\ exists entry, In entry entries
                            /\ from_dict entry settings = Raise e)
    /\ (forall before bad after,
           entries = (before ++ bad :: after)%list ->
           from_dict bad settings = Raise ValueError ->
           build_sources entries settings
           = build_sources (before ++ after)%list settings).
Proof.
  intros R P entries settings.
  split; [ | split ].
  - intros sources H.
    split; [ exact (build_sources_returns _ _ _ H) | ].
    intros source Hin.
    destruct (build_sources_from _ _ _ _ H Hin) as [entry [_ He]].
    destruct (from_dict_returns _ _ _ He)
      as [fields [url [order_id [_ [_ [_ [_ [_ [W _]]]]]]]]].
    exact W.
  - intro e. apply build_sources_raises.
  - intros before bad after -> H. apply build_sources_skips. exact H.
Qed.

(** Of the three entries of the run the first one is kept. *)
Lemma build_sources_keeps_valid_entries_witness :
  exists sources,
    @build_sources Scenario.runtime ReferenceNumbers.parsing
      [Run.alert_entry; Run.nameless_entry; JStr "not an object"]
      Scenario.settings = Ret sources
    /\ map SourceConfig.order_id sources = ["ord-3"]
    /\ forall source, In source sources -> well_formed source.
Proof.
  destruct (@build_sources Scenario.runtime ReferenceNumbers.parsing
              [Run.alert_entry; Run.nameless_entry; JStr "not an object"]
              Scenario.settings) as [sources | e] eqn:E.
  - exists sources. split; [ reflexivity | ].
    split; [ vm_compute in E; injection E as <-; reflexivity | ].
    exact (proj2 (proj1 (build_sources_keeps_valid_entries
                           Scenario.runtime ReferenceNumbers.parsing _ _)
                        sources E)).
  - vm_compute in E. discriminate E.
Defined.

(** When [sources] gives at least one entry, the sources are built from
    those entries and the top-level [url] is not read.  When [sources]
    gives no entry (it is absent, blank, an empty array, or is rejected
    with [ValueError]) and the top-level [url] is a text that is not
    blank, with no order id beside it and delay patterns on which
    [json.loads] does not raise, there is one source: that address,
    trimmed, for the order [unknown-order], with the top-level promised
    date (when it is not a false value) and delay patterns and the
    engine's ignore patterns; with no top-level [url] there is no source.
    [_parse_sources] never raises [ValueError]. *)
Theorem parse_sources_legacy_shorthand :
  forall (R : Runtime) (P : NumberParsing) (payload : list (string * json))
         (settings : ActorSettings.t),
    (forall entry entries,
        _coerce_sources_payload (dict_get payload "sources")
        = Ret (entry :: entries) ->
        _parse_sources payload settings
        = build_sources (entry :: entries) settings)
    /\ (forall u,
           _coerce_sources_payload (dict_get payload "sources") = Ret []
           \/ _coerce_sources_payload (dict_get payload "sources")
              = Raise ValueError ->
           dict_get payload "url" = JStr u ->
           strip u <> EmptyString ->
           json_truthy (dict_get payload "orderId") = false ->
           (forall s, dict_get payload "delayPatterns" = JStr s ->
                      json_loads_raises (strip s) = None) ->
           _parse_sources payload settings
           = Ret [ shorthand_source
                     (strip u) "unknown-order"
                     (_clean_string
                        (json_or (dict_get payload "promisedDeliveryDate") JNull))
                     (list_or (_ensure_list (dict_get payload "delayPatterns"))
                              (ActorSettings.delay_patterns settings))
                     (ActorSettings.ignore_patterns settings) ])
    /\ (_coerce_sources_payload (dict_get payload "sources") = Ret []
        \/ _coerce_sources_payload (dict_get payload "sources")
           = Raise ValueError ->
        json_truthy (dict_get payload "url") = false ->
        _parse_sources payload settings = Ret [])
    /\ (forall e, _parse_sources payload settings = Raise e ->
                  e <> ValueError).
Proof.
  intros R P payload settings.
  split; [ | split; [ | split ] ].
  - intros entry entries H.
    unfold _parse_sources, normalized_sources. rewrite H. reflexivity.
  - intros u Hs Hu Hne Ho Hp.
    unfold _parse_sources. rewrite (normalized_sources_none _ Hs). rewrite Hu.
    assert (T : json_truthy (JStr u) = true).
    { simpl. destruct u; [ exfalso; apply Hne; reflexivity | reflexivity ]. }
    rewrite T. unfold legacy_source. cbv zeta. rewrite Hu.
    unfold json_or at 1. rewrite Ho.
    apply is_empty_false in Hne.
    unfold and_then at 1. unfold build_sources, from_dict. cbv zeta.
    simpl dict_get. unfold _patterns.
    rewrite (ensure_list_call_returns _ Hp).
    simpl. rewrite Hne. simpl. reflexivity.
  - intros Hs Hu.
    unfold _parse_sources. rewrite (normalized_sources_none _ Hs). rewrite Hu.
    reflexivity.
  - intro e. apply parse_sources_raises.
Qed.

(** The legacy input of the run gives one source for the order
    [unknown-order]. *)
Lemma parse_sources_legacy_shorthand_witness :
  @_parse_sources Scenario.runtime ReferenceNumbers.parsing
    Run.legacy_input Scenario.settings
  = Ret [ shorthand_source "https://example.com/alert" "unknown-order" None
            (ActorSettings.delay_patterns Scenario.settings)
            (ActorSettings.ignore_patterns Scenario.settings) ].
Proof.
  apply (proj1 (proj2 (parse_sources_legacy_shorthand
                         Scenario.runtime ReferenceNumbers.parsing
                         Run.legacy_input Scenario.settings))
           "https://example.com/alert").
  - right. vm_compute. reflexivity.
  - reflexivity.
  - vm_compute. discriminate.
  - reflexivity.
  - intros s H. discriminate H.
Defined.

(** ** The run *)

Section RunFacts.

Context {R : Runtime}.

Lemma collect_incidents_length (results : list (outcome (option incident))) :
  List.length (collect_incidents results) <= List.length results.
Proof.
  induction results as [| result rest IH]; simpl; [ lia | ].
  destruct result as [[[| entry more] |] | e]; simpl; lia.
Qed.

Lemma evaluate_from_length
      (i : nat) (sources : list SourceConfig.t) (settings : ActorSettings.t)
      (fetch : nat -> fetch_result) (clock : nat -> string) :
  List.length (evaluate_from i sources settings fetch clock)
  = List.length sources.
Proof.
  revert i. induction sources as [| source rest IH]; intro i; simpl;
    [ reflexivity | ].
  rewrite IH. reflexivity.
Qed.

Lemma evaluate_from_In
      (i : nat) (sources : list SourceConfig.t) (settings : ActorSettings.t)
      (fetch : nat -> fetch_result) (clock : nat -> string)
      (result : outcome (option incident)) :
  In result (evaluate_from i sources settings fetch clock)
  <-> exists k source,
        nth_error sources k = Some source
        /\ result = _evaluate_source (fetch (i + k)) source settings
                                     (clock (i + k)).
Proof.
  revert i. induction sources as [| source rest IH]; intro i; simpl.
  - split; [ intros [] | intros [[| k] [s [H _]]]; discriminate H ].
  - rewrite IH. split.
    + intros [<- | [k [s [Hk Hs]]]].
      * exists 0, source. rewrite Nat.add_0_r. split; reflexivity.
      * exists (S k), s. rewrite Nat.add_succ_r. split; assumption.
    + intros [[| k] [s [Hk Hs]]]; simpl in Hk.
      * injection Hk as <-. rewrite Nat.add_0_r in Hs. left. symmetry. exact Hs.
      * right. exists k, s. rewrite Nat.add_succ_r in Hs. split; assumption.
Qed.

End RunFacts.

(** What [main] pushes is never empty and holds at most one record per
    source: a record is pushed exactly when it is not empty and is what
    the evaluation of one of the parsed sources returned, the source at
    position [i] being answered [fetch i].  [main] raises only what the
    parsing of the settings or of the sources raises, or [ValueError]
    when there is no source: no evaluation of a source makes it raise. *)
Theorem main_pushes_evaluated_records :
  forall (R : Runtime) (P : NumberParsing) (payload : list (string * json))
         (fetch : nat -> fetch_result) (clock : nat -> string),
    (forall records,
        main payload fetch clock = Ret (Some records) ->
        records <> []
        /\ exists settings sources,
             _parse_settings payload = Ret settings
             /\ _parse_sources payload settings = Ret sources
             /\ List.length records <= List.length sources
             /\ forall record,
                  In record records
                  <-> record <> []
                      /\ exists i source,
                           nth_error sources i = Some source
                           /\ _evaluate_source (fetch i) source settings (clock i)
                              = Ret (Some record))
    /\ (forall e,
           main payload fetch clock = Raise e ->
           _parse_settings payload = Raise e
           \/ exists settings,
                _parse_settings payload = Ret settings
                /\ (_parse_sources payload settings = Raise e
                    \/ (_parse_sources payload settings = Ret []
                        /\ e = ValueError))).
Proof.
  intros R P payload fetch clock.
  split.
  - intros records. unfold main, and_then.
    destruct (_parse_settings payload) as [settings | e1]; [ | discriminate ].
    destruct (_parse_sources payload settings) as [[| source sources] | e2] eqn:Es;
      try discriminate.
    destruct (collect_incidents _) as [| record more] eqn:E; [ discriminate | ].
    intro H. injection H as <-.
    split; [ discriminate | ].
    exists settings, (source :: sources).
    split; [ reflexivity | split; [ exact Es | split ] ].
    + rewrite <- E.
      rewrite <- (evaluate_from_length 0 (source :: sources) settings fetch clock).
      apply collect_incidents_length.
    + intro r. rewrite <- E. rewrite collect_incidents_In.
      rewrite evaluate_from_In. simpl.
      split; intros [Hne [i [s [Hi Hs]]]];
        (split; [ exact Hne | exists i, s; split; [ exact Hi | ] ]);
        congruence.
  - intros e. unfold main, and_then.
    destruct (_parse_settings payload) as [settings | e1];
      [ | intro H; injection H as <-; left; reflexivity ].
    intro H. right. exists settings. split; [ reflexivity | ].
    destruct (_parse_sources payload settings) as [[| source sources] | e2].
    + injection H as <-. right. split; reflexivity.
    + destruct (collect_incidents _); discriminate H.
    + injection H as <-. left. reflexivity.
Qed.

(** The run pushes one record, that of the order [ord-3]. *)
Lemma main_pushes_evaluated_records_witness :
  exists records,
    @main Scenario.runtime ReferenceNumbers.parsing Run.input
      (fun _ => Response "application/json" Scenario.alert_body)
      (fun _ => Scenario.now)
    = Ret (Some records)
    /\ List.length records = 1
    /\ records <> [].
Proof.
  destruct (@main Scenario.runtime ReferenceNumbers.parsing Run.input
              (fun _ => Response "application/json" Scenario.alert_body)
              (fun _ => Scenario.now)) as [[records |] | e] eqn:E.
  - exists records. split; [ reflexivity | ].
    split; [ vm_compute in E; injection E as <-; reflexivity | ].
    exact (proj1 (proj1 (main_pushes_evaluated_records
                           Scenario.runtime ReferenceNumbers.parsing
                           Run.input _ _) records E)).
  - vm_compute in E. discriminate E.
  - vm_compute in E. discriminate E.
Defined.

(** ** From the input to the record *)

Section RecordFacts.

Context {R : Runtime} {P : NumberParsing}.

Lemma parse_settings_labels
      (payload : list (string * json)) (settings : ActorSettings.t) :
  _parse_settings payload = Ret settings ->
  ActorSettings.source_label settings <> EmptyString
  /\ ActorSettings.carrier_status_code settings <> EmptyString.
Proof.
  unfold _parse_settings. cbv zeta. unfold and_then.
  intro H. outcome_cases H. injection H as <-. simpl.
  split.
  - refine (proj1 (clean_string_or_trimmed _ DEFAULT_SOURCE_LABEL _ _ eq_refl)).
    intros t Ht. injection Ht as <-. split; [ discriminate | reflexivity ].
  - refine (proj1 (clean_string_or_trimmed _ DEFAULT_STATUS_CODE _ _ eq_refl)).
    intros t Ht. injection Ht as <-. split; [ discriminate | reflexivity ].
Qed.

Lemma or_else_trimmed (o : option string) (fallback : string) :
  trimmed o ->
  or_else o (Some fallback)
  = Some match o with
         | Some text => text
         | None => fallback
         end.
Proof.
  intro H. destruct o as [text |]; [ | reflexivity ].
  destruct (H text eq_refl) as [Hne _]. apply is_empty_false in Hne.
  unfold or_else. simpl. rewrite Hne. reflexivity.
Qed.

Lemma built_incident_holds
      (x : Candidates) (m : PatternMatch.t) (source : SourceConfig.t)
      (settings : ActorSettings.t) (detected_at : string)
      (key text : string) :
  text <> EmptyString ->
  In (key, VStr text)
     [ ("incidentId", VStr (_build_incident_id source));
       ("orderId", VStr (SourceConfig.order_id source));
       ("carrierStatusCode",
        of_option (or_else (SourceConfig.carrier_status_code source)
                     (Some (ActorSettings.carrier_status_code settings))));
       ("carrierStatusDescription",
        of_option (or_else (or_else (status_text x)
                                    (Some (PatternMatch.text m)))
                           (Some "Carrier reported delay.")));
       ("source",
        of_option (or_else (SourceConfig.source_label source)
                     (Some (ActorSettings.source_label settings)))) ] ->
  In (key, VStr text) (build_incident x m source settings detected_at).
Proof.
  intros Hne Hin. unfold build_incident, sparse. cbv zeta.
  apply filter_In.
  split; [ | simpl; apply is_empty_false in Hne; rewrite Hne; reflexivity ].
  destruct (SourceConfig.metadata source);
    [ | apply in_or_app; left ];
    simpl in Hin |- *; tauto.
Qed.

End RecordFacts.

(** A record emitted for a source that [from_dict] built, under settings
    that [_parse_settings] returned, always holds the order id of the
    source, a carrier status code and a source label (those of the source
    when it declares them, else those of the settings), and a status
    description that is not empty; it holds the incident id the source
    declares when it declares one. *)
Theorem configured_record_required_fields :
  forall (R : Runtime) (P : NumberParsing) (input : list (string * json))
         (entry : json) (settings : ActorSettings.t) (source : SourceConfig.t)
         (fetched : fetch_result) (detected_at : string) (record : incident),
    _parse_settings input = Ret settings ->
    from_dict entry settings = Ret source ->
    _evaluate_source fetched source settings detected_at = Ret (Some record) ->
    In ("orderId", VStr (SourceConfig.order_id source)) record
    /\ In ("carrierStatusCode",
           VStr match SourceConfig.carrier_status_code source with
                | Some status_code => status_code
                | None => ActorSettings.carrier_status_code settings
                end) record
    /\ In ("source",
           VStr match SourceConfig.source_label source with
                | Some label => label
                | None => ActorSettings.source_label settings
                end) record
    /\ (exists description,
           description <> EmptyString
           /\ In ("carrierStatusDescription", VStr description) record)
    /\ (forall id, SourceConfig.incident_id source = Some id ->
                   In ("incidentId", VStr id) record).
Proof.
  intros R P input entry settings source fetched detected_at record Hs Hd He.
  destruct (parse_settings_labels _ _ Hs) as [Hlabel Hcode].
  destruct (from_dict_returns _ _ _ Hd)
    as [fields [url [order_id [_ [_ [_ [_ [_ [W _]]]]]]]]].
  destruct W as [_ [Wo [_ [_ [Wi [_ [Wl [Wc _]]]]]]]].
  destruct (evaluation_emits R _ _ _ _ _ He)
    as [content_type [body [x [m [_ [_ [_ [_ [_ ->]]]]]]]]].
  split; [ | split; [ | split; [ | split ] ] ].
  - apply built_incident_holds; [ exact (proj1 (Wo _ eq_refl)) | ].
    simpl. tauto.
  - apply built_incident_holds.
    + destruct (SourceConfig.carrier_status_code source) as [c |];
        [ exact (proj1 (Wc c eq_refl)) | exact Hcode ].
    + rewrite (or_else_trimmed _ _ Wc). simpl. tauto.
  - apply built_incident_holds.
    + destruct (SourceConfig.source_label source) as [l |];
        [ exact (proj1 (Wl l eq_refl)) | exact Hlabel ].
    + rewrite (or_else_trimmed _ _ Wl). simpl. tauto.
  - destruct (or_else (or_else (status_text x) (Some (PatternMatch.text m)))
                      (Some "Carrier reported delay.")) as [d |] eqn:Ed.
    + assert (Hd' : d <> EmptyString).
      { unfold or_else in Ed.
        destruct (truthy (if truthy (status_text x) then status_text x
                          else Some (PatternMatch.text m))) eqn:T.
        - rewrite Ed in T. simpl in T. apply is_empty_false.
          destruct (is_empty d); [ discriminate T | reflexivity ].
        - injection Ed as <-. discriminate. }
      exists d. split; [ exact Hd' | ].
      apply built_incident_holds; [ exact Hd' | ].
      rewrite Ed. simpl. tauto.
    + exfalso. unfold or_else in Ed.
      destruct (truthy (if truthy (status_text x) then status_text x
                        else Some (PatternMatch.text m))) eqn:T;
        [ rewrite Ed in T; discriminate T | discriminate Ed ].
  - intros id Hid.
    destruct (Wi id Hid) as [Hne _].
    apply built_incident_holds; [ exact Hne | ].
    unfold _build_incident_id. rewrite Hid.
    apply is_empty_false in Hne. rewrite Hne. simpl. tauto.
Qed.

(** The record of the run holds the order id [ord-3]. *)
Lemma configured_record_required_fields_witness :
  exists settings source record,
    @_parse_settings Scenario.runtime ReferenceNumbers.parsing Run.input
    = Ret settings
    /\ @from_dict Scenario.runtime ReferenceNumbers.parsing
         Run.alert_entry settings = Ret source
    /\ @_evaluate_source Scenario.runtime
         (Response "application/json" Scenario.alert_body)
         source settings Scenario.now = Ret (Some record)
    /\ In ("orderId", VStr "ord-3") record.
Proof.
  destruct (@_parse_settings Scenario.runtime ReferenceNumbers.parsing Run.input)
    as [settings | e] eqn:Es; [ | vm_compute in Es; discriminate Es ].
  destruct (@from_dict Scenario.runtime ReferenceNumbers.parsing
              Run.alert_entry settings) as [source | e] eqn:Ed;
    [ | vm_compute in Es; injection Es as <-; vm_compute in Ed;
        discriminate Ed ].
  destruct (@_evaluate_source Scenario.runtime
              (Response "application/json" Scenario.alert_body)
              source settings Scenario.now) as [[record |] | e] eqn:Ee;
    [ | vm_compute in Es; injection Es as <-; vm_compute in Ed;
        injection Ed as <-; vm_compute in Ee; discriminate Ee
      | vm_compute in Es; injection Es as <-; vm_compute in Ed;
        injection Ed as <-; vm_compute in Ee; discriminate Ee ].
  exists settings, source, record.
  split; [ reflexivity | split; [ exact Ed | split; [ exact Ee | ] ] ].
  pose proof (proj1 (configured_record_required_fields
                       Scenario.runtime ReferenceNumbers.parsing
                       Run.input Run.alert_entry settings source _ _ record
                       Es Ed Ee)) as H.
  vm_compute in Es. injection Es as <-.
  vm_compute in Ed. injection Ed as <-.
  exact H.
Defined.

(** ** The sign of the delay *)

Lemma above_zero_not_below (x : pyfloat) :
  float_lt zero x = true -> float_lt x zero = false.
Proof.
  destruct x as [q | | |]; simpl; try reflexivity; try discriminate.
  intro H. apply Qltb_true in H. apply Qltb_false. apply Qlt_le_weak. exact H.
Qed.

(** With a fallback that is not below zero, the delay-hours computed are
    never below zero, whichever tier gives them; so the delay-hours of a
    source are never below zero under settings whose default delay is
    not. *)
Theorem delay_hours_never_negative :
  forall (R : Runtime) (expected : option pyfloat) (promised estimated : option Z)
         (fallback : pyfloat),
    float_lt fallback zero = false ->
    float_lt (_determine_delay_hours expected promised estimated fallback) zero
    = false
    /\ forall (x : Candidates) (m : PatternMatch.t) (source : SourceConfig.t)
              (settings : ActorSettings.t),
         ActorSettings.default_delay_hours settings = fallback ->
         float_lt (delay_hours_of x m source settings) zero = false.
Proof.
  intros R expected promised estimated fallback Hf.
  assert (G : forall expected promised estimated,
             float_lt (_determine_delay_hours expected promised estimated fallback)
                      zero = false).
  { clear expected promised estimated. intros expected promised estimated.
    assert (T : float_lt match promised, estimated with
                         | Some p, Some e => float_max (hours_between e p) zero
                         | _, _ => fallback
                         end zero = false).
    { destruct promised as [p |], estimated as [e |]; try exact Hf.
      destruct (floored_hours e p) as [q [-> [Hq _]]].
      simpl. apply Qltb_false. exact Hq. }
    unfold _determine_delay_hours.
    destruct expected as [x |]; [ | exact T ].
    destruct (float_truthy x && float_lt zero x) eqn:E; [ | exact T ].
    apply andb_true_iff in E. apply above_zero_not_below. exact (proj2 E). }
  split; [ apply G | ].
  intros x m source settings Hs. unfold delay_hours_of. rewrite Hs. apply G.
Qed.

(** A promised date after the estimate gives zero hours. *)
Lemma delay_hours_never_negative_witness :
  float_lt (_determine_delay_hours None (Some 7200000000%Z) (Some 0%Z) (Fin 48))
           zero = false.
Proof.
  exact (proj1 (delay_hours_never_negative Scenario.runtime
                  None (Some 7200000000%Z) (Some 0%Z) (Fin 48) eq_refl)).
Defined.
